(** * macOS performance monitor: the stateful metrics sampler

    A shallow embedding of [MacOSPerformanceMonitor]
    (src/macos_performance_monitor.py): the rate computations of
    [get_network_info] and [get_disk_info], the temperature cache of
    [get_temperature_info], the priming pass and the ranking of
    [get_top_processes], and the report that composes them.

    Conventions of the embedding.
    - Python integers (byte and packet counters, pids, [num]) are [Z].
    - Python floats (clock readings, rates, percentages) are rationals [Q]
      with exact arithmetic; equality of floats is [Qeq].  Signs, zero
      tests and comparisons are what the theorems are about.
    - What the operating system answers at a call (the clock, the psutil
      counters, the outcome of the powermetrics subprocess, the process
      table) is an argument of the method.
    - Instance fields are the record [Monitor]; a method is a computation
      in the monad [M], which threads the monitor, logs the external
      actions it performs and may raise a Python exception. *)

From Corelib Require Import PrimFloat FloatOps SpecFloat.
From Stdlib Require Import ZArith QArith Qround List String Bool Lia Lqa Sorted
  Permutation.
Import ListNotations.

Local Open Scope Z_scope.
Local Open Scope Q_scope.

(** ** Python primitives *)

Module Py.

(** Exceptions that can escape the modelled methods. *)
Inductive exn : Type :=
| ZeroDivisionError
| AttributeError.

Inductive result (A : Type) : Type :=
| Ok (a : A)
| Raise (e : exn).
Arguments Ok {A} a.
Arguments Raise {A} e.

(** [max(a, b)]: the first of the largest arguments. *)
Definition max (a b : Q) : Q :=
  if Qlt_le_dec a b then b else a.

(** [a / b] on floats: raises ZeroDivisionError on a zero divisor. *)
Definition truediv (a b : Q) : result Q :=
  if Qeq_bool b 0 then Raise ZeroDivisionError else Ok (a / b).

(** Round half to even of a rational to an integer. *)
Definition round_half_even (x : Q) : Z :=
  let n := Qnum x in
  let d := Z.pos (Qden x) in
  let fl := (n / d)%Z in
  let r := (n mod d)%Z in
  match (2 * r ?= d)%Z with
  | Lt => fl
  | Gt => (fl + 1)%Z
  | Eq => if Z.even fl then fl else (fl + 1)%Z
  end.

(** [round(x, 2)], on the exact value of [x]: the float arithmetic of
    Python is carried out here on rationals, so the results below are
    about signs, order and equalities, not about the last digit a double
    would print. *)
Definition round2 (x : Q) : Q :=
  Qmake (round_half_even (x * 100)) 100.

(** [v or 0.0] for an optional float: None and 0.0 are falsy. *)
Definition or_zero (v : option Q) : Q :=
  match v with
  | Some x => if Qeq_bool x 0 then 0 else x
  | None => 0
  end.

(** [l[:num]]: a negative bound counts from the end. *)
Definition slice_to {A : Type} (l : list A) (num : Z) : list A :=
  if (0 <=? num)%Z then firstn (Z.to_nat num) l
  else firstn (List.length l - Z.to_nat (- num))%nat l.

(** Where [x] goes in a list already sorted in descending order of [key]:
    before the first element whose key is not larger. *)
Fixpoint insert_desc {A : Type} (key : A -> Q) (x : A) (l : list A) : list A :=
  match l with
  | [] => [x]
  | y :: l' =>
      if Qle_bool (key y) (key x) then x :: y :: l'
      else y :: insert_desc key x l'
  end.

(** [l.sort(key=key, reverse=True)]: descending by [key]; the sort is
    stable, elements with equal keys keep their original order. *)
Definition sort_reverse {A : Type} (key : A -> Q) (l : list A) : list A :=
  fold_right (insert_desc key) [] l.

End Py.

(** ** psutil records *)

(** [psutil.net_io_counters()]. *)
Record NetIO : Type := mkNetIO {
  bytes_sent : Z;
  bytes_recv : Z;
  packets_sent : Z;
  packets_recv : Z
}.

(** [psutil.disk_io_counters()]; the call returns None on a machine with
    no disks, hence [option DiskIO] where it is used. *)
Record DiskIO : Type := mkDiskIO {
  read_bytes : Z;
  write_bytes : Z;
  read_count : Z;
  write_count : Z
}.

(** The [info] dict of a process yielded by [psutil.process_iter(attrs)];
    an attribute that could not be read is None. *)
Record ProcInfo : Type := mkProcInfo {
  info_pid : Z;
  info_name : option string;
  info_cpu_percent : option Q;
  info_memory_percent : option Q;
  info_username : option string
}.

(** One iteration of the loop over the process table: the reads succeed,
    or one of NoSuchProcess, AccessDenied, ZombieProcess is raised. *)
Inductive ProcRead : Type :=
| ReadOk (info : ProcInfo)
| ReadFails.

(** One line of the powermetrics output: whether it contains
    'CPU die temperature' and, if so, what the conversion of the text
    after the colon to a float gives (None when it raises). *)
Inductive Line : Type :=
| OtherLine
| TempLine (parsed : option Q).

(** What [subprocess.run] does with the powermetrics command, among the
    outcomes [get_temperature_info] handles: it completes, or raises one
    of the exceptions the except clause lists (a CalledProcessError cannot
    occur, check being False).  An exception outside that list propagates
    to the caller; it is modelled in [B64.Run]. *)
Inductive ProbeOutcome : Type :=
| Completed (returncode : Z) (stdout : list Line)
| TimeoutExpired
| FileNotFoundError.

(** A non-empty [temps] dict: its single key is 'cpu_temp_c'. *)
Record Temps : Type := mkTemps {
  cpu_temp_c : Q
}.

(** ** Monitor state *)

Record Monitor : Type := mkMonitor {
  start_time : Q;
  network_io_start : NetIO;
  _prev_net_io : NetIO;
  _prev_disk_io : option DiskIO;
  _prev_sample_ts : Q;
  _last_temp : option Temps;
  _last_temp_ts : Q;
  enable_temps : bool;
  temp_refresh_seconds : Q;
  _proc_prime_ts : Q
}.

(** External actions a method performs, in order. *)
Inductive Event : Type :=
| EvProbe                       (* subprocess.run of powermetrics *)
| EvPrimeIter                   (* psutil.process_iter(['pid']) *)
| EvCpuPercent (pid : Z)        (* p.cpu_percent(None) *)
| EvSleep (seconds : Q)         (* time.sleep *)
| EvInfoIter.                   (* psutil.process_iter(['pid', 'name', ...]) *)

(** State, log and exceptions. *)
Definition M (A : Type) : Type :=
  Monitor -> Py.result (A * Monitor * list Event).

Definition ret {A : Type} (a : A) : M A :=
  fun s => Py.Ok (a, s, []).

Definition bind {A B : Type} (m : M A) (f : A -> M B) : M B :=
  fun s =>
    match m s with
    | Py.Raise e => Py.Raise e
    | Py.Ok (a, s1, t1) =>
        match f a s1 with
        | Py.Raise e => Py.Raise e
        | Py.Ok (b, s2, t2) => Py.Ok (b, s2, t1 ++ t2)
        end
    end.

Definition self : M Monitor :=
  fun s => Py.Ok (s, s, []).

Definition assign (f : Monitor -> Monitor) : M unit :=
  fun s => Py.Ok (tt, f s, []).

Definition emit (e : Event) : M unit :=
  fun s => Py.Ok (tt, s, [e]).

Definition raise {A : Type} (e : Py.exn) : M A :=
  fun _ => Py.Raise e.

Definition lift {A : Type} (r : Py.result A) : M A :=
  fun s =>
    match r with
    | Py.Ok a => Py.Ok (a, s, [])
    | Py.Raise e => Py.Raise e
    end.

Declare Scope monitor_scope.
Delimit Scope monitor_scope with mon.
Notation "x <- m ;; k" := (bind m (fun x => k))
  (at level 61, m at next level, right associativity) : monitor_scope.
Notation "m ;; k" := (bind m (fun _ => k))
  (at level 61, right associativity) : monitor_scope.
Local Open Scope monitor_scope.

(** Field updates. *)
Definition set_prev_net_io (v : NetIO) (s : Monitor) : Monitor :=
  mkMonitor (start_time s) (network_io_start s) v (_prev_disk_io s)
    (_prev_sample_ts s) (_last_temp s) (_last_temp_ts s) (enable_temps s)
    (temp_refresh_seconds s) (_proc_prime_ts s).

Definition set_prev_disk_io (v : option DiskIO) (s : Monitor) : Monitor :=
  mkMonitor (start_time s) (network_io_start s) (_prev_net_io s) v
    (_prev_sample_ts s) (_last_temp s) (_last_temp_ts s) (enable_temps s)
    (temp_refresh_seconds s) (_proc_prime_ts s).

Definition set_prev_sample_ts (v : Q) (s : Monitor) : Monitor :=
  mkMonitor (start_time s) (network_io_start s) (_prev_net_io s)
    (_prev_disk_io s) v (_last_temp s) (_last_temp_ts s) (enable_temps s)
    (temp_refresh_seconds s) (_proc_prime_ts s).

Definition set_last_temp (v : option Temps) (s : Monitor) : Monitor :=
  mkMonitor (start_time s) (network_io_start s) (_prev_net_io s)
    (_prev_disk_io s) (_prev_sample_ts s) v (_last_temp_ts s) (enable_temps s)
    (temp_refresh_seconds s) (_proc_prime_ts s).

Definition set_last_temp_ts (v : Q) (s : Monitor) : Monitor :=
  mkMonitor (start_time s) (network_io_start s) (_prev_net_io s)
    (_prev_disk_io s) (_prev_sample_ts s) (_last_temp s) v (enable_temps s)
    (temp_refresh_seconds s) (_proc_prime_ts s).

Definition set_enable_temps (v : bool) (s : Monitor) : Monitor :=
  mkMonitor (start_time s) (network_io_start s) (_prev_net_io s)
    (_prev_disk_io s) (_prev_sample_ts s) (_last_temp s) (_last_temp_ts s) v
    (temp_refresh_seconds s) (_proc_prime_ts s).

Definition set_proc_prime_ts (v : Q) (s : Monitor) : Monitor :=
  mkMonitor (start_time s) (network_io_start s) (_prev_net_io s)
    (_prev_disk_io s) (_prev_sample_ts s) (_last_temp s) (_last_temp_ts s)
    (enable_temps s) (temp_refresh_seconds s) v.

(** ** The methods *)

(** 1e-6, the floor of the time window. *)
Definition EPSILON : Q := 1 # 1000000.

(** 1024**2 *)
Definition MIB : Q := 1048576.

(** [__init__]: [now] is time.time(), [net] and [disk] the counters read
    at construction. *)
Definition init (now : Q) (net : NetIO) (disk : option DiskIO) : Monitor :=
  {| start_time := now;
     network_io_start := net;
     _prev_net_io := net;
     _prev_disk_io := disk;
     _prev_sample_ts := now;
     _last_temp := None;
     _last_temp_ts := 0;
     enable_temps := false;
     temp_refresh_seconds := 5;
     _proc_prime_ts := 0 |}.

(** The 'io_stats' dict of [get_disk_info]. *)
Record DiskStats : Type := mkDiskStats {
  read_mib : Q;
  write_mib : Q;
  read_rate_mib_s : Q;
  write_rate_mib_s : Q;
  stat_read_count : Z;
  stat_write_count : Z
}.

(** [dt = max(now - self._prev_sample_ts, 1e-6)], the window of both rate
    computations. *)
Definition window (s : Monitor) (now : Q) : Q :=
  Py.max (now - _prev_sample_ts s) EPSILON.

(** [get_disk_info], the I/O part (the partition list reads no state):
    [io] is psutil.disk_io_counters(), [now] is time.time(). *)
Definition get_disk_info (io : option DiskIO) (now : Q) : M (option DiskStats) :=
  match io with
  | None => ret None
  | Some io =>
      s <- self ;;
      let dt := window s now in
      match _prev_disk_io s with
      | None => raise Py.AttributeError
      | Some prev =>
          r0 <- lift (Py.truediv (inject_Z (read_bytes io - read_bytes prev)) MIB) ;;
          read_rate <- lift (Py.truediv r0 dt) ;;
          w0 <- lift (Py.truediv (inject_Z (write_bytes io - write_bytes prev)) MIB) ;;
          write_rate <- lift (Py.truediv w0 dt) ;;
          rm <- lift (Py.truediv (inject_Z (read_bytes io)) MIB) ;;
          wm <- lift (Py.truediv (inject_Z (write_bytes io)) MIB) ;;
          let disk_io :=
            {| read_mib := Py.round2 rm;
               write_mib := Py.round2 wm;
               read_rate_mib_s := Py.round2 read_rate;
               write_rate_mib_s := Py.round2 write_rate;
               stat_read_count := read_count io;
               stat_write_count := write_count io |} in
          assign (set_prev_disk_io (Some io)) ;;
          ret (Some disk_io)
      end
  end.

(** The dict returned by [get_network_info]. *)
Record NetStats : Type := mkNetStats {
  bytes_sent_mib : Q;
  bytes_recv_mib : Q;
  send_rate_mib_s : Q;
  recv_rate_mib_s : Q;
  stat_packets_sent : Z;
  stat_packets_recv : Z
}.

(** [get_network_info]: [net_io] is psutil.net_io_counters(), [now] is
    time.time(). *)
Definition get_network_info (net_io : NetIO) (now : Q) : M NetStats :=
  s <- self ;;
  let dt := window s now in
  sent_rate <- lift (Py.truediv
                 (inject_Z (bytes_sent net_io - bytes_sent (_prev_net_io s))) dt) ;;
  recv_rate <- lift (Py.truediv
                 (inject_Z (bytes_recv net_io - bytes_recv (_prev_net_io s))) dt) ;;
  assign (set_prev_net_io net_io) ;;
  assign (set_prev_sample_ts now) ;;
  sm <- lift (Py.truediv (inject_Z (bytes_sent net_io)) MIB) ;;
  rm <- lift (Py.truediv (inject_Z (bytes_recv net_io)) MIB) ;;
  sr <- lift (Py.truediv sent_rate MIB) ;;
  rr <- lift (Py.truediv recv_rate MIB) ;;
  ret {| bytes_sent_mib := Py.round2 sm;
         bytes_recv_mib := Py.round2 rm;
         send_rate_mib_s := Py.round2 sr;
         recv_rate_mib_s := Py.round2 rr;
         stat_packets_sent := packets_sent net_io;
         stat_packets_recv := packets_recv net_io |}.

(** The parsing loop over the lines of stdout: [temps] starts empty (None)
    and every line that converts overwrites the key. *)
Definition parse_temps (stdout : list Line) : option Temps :=
  fold_left
    (fun temps line =>
       match line with
       | TempLine (Some v) => Some {| cpu_temp_c := v |}
       | TempLine None => temps
       | OtherLine => temps
       end)
    stdout None.

(** [get_temperature_info]: [now] is time.time(), [probe] is what
    subprocess.run does if it is called.  The age of the cached value is
    the exact difference of the two clock readings; the test on the
    rounded binary64 difference is [B64.get_temperature_info]. *)
Definition get_temperature_info (probe : ProbeOutcome) (now : Q)
  : M (option Temps) :=
  s <- self ;;
  if negb (enable_temps s) then ret None
  else
    if andb (if Qlt_le_dec (now - _last_temp_ts s) (temp_refresh_seconds s)
             then true else false)
            (match _last_temp s with Some _ => true | None => false end)
    then ret (_last_temp s)
    else
      emit EvProbe ;;
      match probe with
      | Completed returncode stdout =>
          if (returncode =? 0)%Z then
            let temps := parse_temps stdout in
            assign (set_last_temp temps) ;;
            assign (set_last_temp_ts now) ;;
            s' <- self ;;
            ret (_last_temp s')
          else ret None
      | TimeoutExpired => ret None
      | FileNotFoundError => ret None
      end.

(** One dict of the list returned by [get_top_processes]. *)
Record ProcRow : Type := mkProcRow {
  pid : Z;
  name : option string;
  cpu_percent : Q;
  memory_percent : Q;
  username : option string
}.

(** The priming loop: cpu_percent(None) on every process; what it raises
    is swallowed. *)
Fixpoint prime_all (pids : list Z) : M unit :=
  match pids with
  | [] => ret tt
  | p :: rest => emit (EvCpuPercent p) ;; prime_all rest
  end.

(** The collecting loop: a process whose read raises is skipped. *)
Fixpoint collect (reads : list ProcRead) : list ProcRow :=
  match reads with
  | [] => []
  | ReadOk info :: rest =>
      {| pid := info_pid info;
         name := info_name info;
         cpu_percent := Py.or_zero (info_cpu_percent info);
         memory_percent := Py.round2 (Py.or_zero (info_memory_percent info));
         username := info_username info |} :: collect rest
  | ReadFails :: rest => collect rest
  end.

(** The metric the list is sorted by: anything but 'memory' is 'cpu'. *)
Definition sort_key (sort_by : string) : ProcRow -> Q :=
  let sort_by :=
    if orb (String.eqb sort_by "cpu") (String.eqb sort_by "memory")
    then sort_by else "cpu"%string in
  if String.eqb sort_by "cpu" then cpu_percent else memory_percent.

(** [get_top_processes]: [now] is time.time(), [prime_pids] the process
    table seen by the priming loop (if it runs), [reads] the one seen by the
    collecting loop. *)
Definition get_top_processes (num : Z) (sort_by : string) (now : Q)
    (prime_pids : list Z) (reads : list ProcRead) : M (list ProcRow) :=
  s <- self ;;
  (if andb (String.eqb sort_by "cpu")
           (if Qlt_le_dec 5 (now - _proc_prime_ts s) then true else false)
   then
     emit EvPrimeIter ;;
     prime_all prime_pids ;;
     emit (EvSleep (2 # 10)) ;;
     assign (set_proc_prime_ts now)
   else ret tt) ;;
  emit EvInfoIter ;;
  let processes := collect reads in
  let processes := Py.sort_reverse (sort_key sort_by) processes in
  ret (Py.slice_to processes num).

(** What the operating system answers during one report. *)
Record Tick : Type := mkTick {
  disk_io : option DiskIO;
  disk_now : Q;
  net_io : NetIO;
  net_now : Q;
  probe : ProbeOutcome;
  temp_now : Q;
  top_now : Q;
  prime_pids : list Z;
  proc_reads : list ProcRead
}.

(** The sections of the report that depend on the monitor's state; the
    others ('timestamp', 'uptime', 'cpu', 'memory', 'battery') are gauges
    read from psutil and leave the monitor untouched. *)
Record Report : Type := mkReport {
  disk : option DiskStats;
  network : NetStats;
  temperature : option Temps;
  top_processes : option (list ProcRow)
}.

(** [get_json_report], restricted to the four sections that read or write
    the monitor: the timestamp, uptime, cpu, memory and battery entries
    come from calls that do not touch it and are not part of the result
    here, so nothing below says that the whole method returns. *)
Definition get_json_report (include_processes : bool) (top_n : Z)
    (sort_by : string) (w : Tick) : M Report :=
  d <- get_disk_info (disk_io w) (disk_now w) ;;
  n <- get_network_info (net_io w) (net_now w) ;;
  t <- get_temperature_info (probe w) (temp_now w) ;;
  if include_processes then
    p <- get_top_processes top_n sort_by (top_now w) (prime_pids w) (proc_reads w) ;;
    ret {| disk := d; network := n; temperature := t; top_processes := Some p |}
  else
    ret {| disk := d; network := n; temperature := t; top_processes := None |}.

(** Which events are the start of a priming pass, and how many passes a
    log holds. *)
Definition is_prime_iter (e : Event) : bool :=
  match e with
  | EvPrimeIter => true
  | _ => false
  end.

Definition prime_passes (t : list Event) : nat :=
  List.length (filter is_prime_iter t).

Definition is_probe (e : Event) : bool :=
  match e with
  | EvProbe => true
  | _ => false
  end.

(** Number of times the powermetrics subprocess was run. *)
Definition probe_runs (t : list Event) : nat :=
  List.length (filter is_probe t).

(** The guard of the priming pass of [get_top_processes]. *)
Definition primes (s : Monitor) (now : Q) (sort_by : string) : bool :=
  andb (String.eqb sort_by "cpu")
       (if Qlt_le_dec 5 (now - _proc_prime_ts s) then true else false).

(** The order a stable descending sort produces from a list whose
    elements were arranged by [before]: a larger key first, and among
    equal keys the element that was first. *)
Definition ranked {A : Type} (key : A -> Q) (before : A -> A -> Prop)
    (a b : A) : Prop :=
  key b < key a \/ (key a == key b /\ before a b).

(** Descending order of a metric. *)
Definition descending (key : ProcRow -> Q) (a b : ProcRow) : Prop :=
  key b <= key a.


(** Whether an iteration of the collecting loop yields a row. *)
Definition read_ok (r : ProcRead) : bool :=
  match r with
  | ReadOk _ => true
  | ReadFails => false
  end.

(** ** Concrete sessions used by the examples *)

Module Sample.

(** A monitor built at time 0 on a machine that had sent and received
    200 MiB and read and written 200 MiB. *)
Definition net200 : NetIO := mkNetIO 209715200 209715200 1000 1000.
Definition disk200 : DiskIO := mkDiskIO 209715200 209715200 500 500.
Definition fresh : Monitor := init 0 net200 (Some disk200).

(** Counters that restarted from zero. *)
Definition net_reset : NetIO := mkNetIO 0 0 0 0.
Definition disk_reset : DiskIO := mkDiskIO 0 0 0 0.

(** Counters one MiB further. *)
Definition net201 : NetIO := mkNetIO 210763776 210763776 1010 1010.
Definition disk201 : DiskIO := mkDiskIO 210763776 210763776 510 510.

(** The same monitor with --temps. *)
Definition with_temps : Monitor := set_enable_temps true fresh.

(** A powermetrics run that reports 45 degrees, and one that reports no
    temperature line. *)
Definition probe45 : ProbeOutcome :=
  Completed 0 [OtherLine; TempLine (Some 45); OtherLine].
Definition probe_empty : ProbeOutcome := Completed 0 [OtherLine].
Definition probe_denied : ProbeOutcome := Completed 1 [].

(** The monitor after probe45 was fetched at time 10. *)
Definition cached45 : Monitor :=
  set_last_temp_ts 10 (set_last_temp (Some (mkTemps 45)) with_temps).

(** Three processes, enumerated in ascending and in descending pid order. *)
Definition proc (p : Z) (n : string) (cpu : Q) : ProcRead :=
  ReadOk (mkProcInfo p (Some n) (Some cpu) (Some 1) (Some "root"%string)).
Definition table_asc : list ProcRead :=
  [proc 1 "a" 10; proc 2 "b" 30; ReadFails; proc 3 "c" 30].

(** One tick of the report loop at time [t] with counters [n] and [d]. *)
Definition tick (t : Q) (n : NetIO) (d : option DiskIO) : Tick :=
  {| disk_io := d; disk_now := t;
     net_io := n; net_now := t;
     probe := probe45; temp_now := t;
     top_now := t; prime_pids := [1; 2; 3]%Z; proc_reads := table_asc |}.

End Sample.

(** ** The stateless sections of the monitor *)

Module Gauge.

(** 1024**3 *)
Definition GIB : Q := 1073741824.

(** [int(x)] of a float: truncation toward zero. *)
Definition int (x : Q) : Z := Z.quot (Qnum x) (Z.pos (Qden x)).

(** [x // y] on floats: the floor of the quotient, as a float.  It is
    only used with the non-zero constants 86400, 3600 and 60. *)
Definition floordiv (x y : Q) : Q := inject_Z (Qfloor (x / y)).

(** [x % y] on floats, for a positive [y] and a non-negative [x]: the
    remainder of the floor division.  (For a tiny negative [x] the float
    remainder rounds to [y] itself; the uptime is only considered with the
    clock not before the boot time.) *)
Definition fmod (x y : Q) : Q := x - y * floordiv x y.

(** The numeric fields of the dict returned by [get_system_uptime]; the
    field 'boot_time' is the formatted date of [boot_time]. *)
Record Uptime : Type := mkUptime {
  uptime_days : Z;
  uptime_hours : Z;
  uptime_minutes : Z
}.

(** [get_system_uptime]: [boot_time] is psutil.boot_time(), [now] is
    time.time(). *)
Definition get_system_uptime (boot_time now : Q) : Uptime :=
  let uptime_seconds := now - boot_time in
  {| uptime_days := int (floordiv uptime_seconds 86400);
     uptime_hours := int (floordiv (fmod uptime_seconds 86400) 3600);
     uptime_minutes := int (floordiv (fmod uptime_seconds 3600) 60) |}.

(** [psutil.virtual_memory()] and [psutil.swap_memory()], the fields
    that are read. *)
Record VirtualMemory : Type := mkVirtualMemory {
  vm_total : Z;
  vm_available : Z;
  vm_used : Z;
  vm_percent : Q
}.

Record SwapMemory : Type := mkSwapMemory {
  sw_total : Z;
  sw_used : Z;
  sw_percent : Q
}.

(** The dict returned by [get_memory_info]. *)
Record MemoryInfo : Type := mkMemoryInfo {
  total_gb : Q;
  available_gb : Q;
  used_gb : Q;
  percent : Q;
  swap_total_gb : Q;
  swap_used_gb : Q;
  swap_percent : Q
}.

(** [get_memory_info]. *)
Definition get_memory_info (mem : VirtualMemory) (swap : SwapMemory)
  : MemoryInfo :=
  {| total_gb := Py.round2 (inject_Z (vm_total mem) / GIB);
     available_gb := Py.round2 (inject_Z (vm_available mem) / GIB);
     used_gb := Py.round2 (inject_Z (vm_used mem) / GIB);
     percent := vm_percent mem;
     swap_total_gb := Py.round2 (inject_Z (sw_total swap) / GIB);
     swap_used_gb := Py.round2 (inject_Z (sw_used swap) / GIB);
     swap_percent := sw_percent swap |}.

(** [psutil.sensors_battery()]. *)
Record Battery : Type := mkBattery {
  bat_percent : Q;
  secsleft : Z;
  power_plugged : option bool
}.

(** The dict returned by [get_battery_info]. *)
Record BatteryInfo : Type := mkBatteryInfo {
  battery_percent : Q;
  plugged_in : option bool;
  time_left_minutes : option Z
}.

(** [get_battery_info]: [battery] is psutil.sensors_battery(), None on a
    machine without one; [POWER_TIME_UNLIMITED] is the psutil constant of
    that name. *)
Definition get_battery_info (POWER_TIME_UNLIMITED : Z)
    (battery : option Battery) : option BatteryInfo :=
  match battery with
  | Some battery =>
      Some {| battery_percent := bat_percent battery;
              plugged_in := power_plugged battery;
              time_left_minutes :=
                if negb (secsleft battery =? POWER_TIME_UNLIMITED)%Z
                then Some (secsleft battery / 60)%Z
                else None |}
  | None => None
  end.

End Gauge.

(** ** Sessions of the monitor *)

(** One use of the monitor by its callers: a method that returns, or the
    assignment of [enable_temps] made by [main]. *)
Inductive step : Monitor -> Monitor -> Prop :=
| step_enable_temps (b : bool) (s : Monitor) :
    step s (set_enable_temps b s)
| step_disk (io : option DiskIO) (now : Q) (s s' : Monitor)
    (r : option DiskStats) (t : list Event) :
    get_disk_info io now s = Py.Ok (r, s', t) -> step s s'
| step_network (net : NetIO) (now : Q) (s s' : Monitor)
    (r : NetStats) (t : list Event) :
    get_network_info net now s = Py.Ok (r, s', t) -> step s s'
| step_temperature (p : ProbeOutcome) (now : Q) (s s' : Monitor)
    (r : option Temps) (t : list Event) :
    get_temperature_info p now s = Py.Ok (r, s', t) -> step s s'
| step_top (num : Z) (sort_by : string) (now : Q) (pp : list Z)
    (reads : list ProcRead) (s s' : Monitor)
    (r : list ProcRow) (t : list Event) :
    get_top_processes num sort_by now pp reads s = Py.Ok (r, s', t) ->
    step s s'
| step_report (ip : bool) (top_n : Z) (sort_by : string) (w : Tick)
    (s s' : Monitor) (r : Report) (t : list Event) :
    get_json_report ip top_n sort_by w s = Py.Ok (r, s', t) -> step s s'.

(** The monitors a session can reach from [s0]. *)
Inductive reachable (s0 : Monitor) : Monitor -> Prop :=
| reach_start : reachable s0 s0
| reach_step (s s' : Monitor) :
    reachable s0 s -> step s s' -> reachable s0 s'.

(** The fields no method assigns. *)
Definition same_config (s s' : Monitor) : Prop :=
  start_time s' = start_time s /\
  network_io_start s' = network_io_start s /\
  temp_refresh_seconds s' = temp_refresh_seconds s.

(** Whether a previous disk record is stored. *)
Definition same_disk_presence (s s' : Monitor) : Prop :=
  (_prev_disk_io s = None <-> _prev_disk_io s' = None).

(** ** Helpers of the terminal interface (macos_tui_advanced.py) *)

Module Tui.

Inductive exn : Type :=
| IndexError
| ZeroDivisionError
| ValueError.

Inductive result (A : Type) : Type :=
| Ok (a : A)
| Raise (e : exn).
Arguments Ok {A} a.
Arguments Raise {A} e.

Definition bind_result {A B : Type} (r : result A) (f : A -> result B) : result B :=
  match r with
  | Ok a => f a
  | Raise e => Raise e
  end.

(** A Python str, as its code points. *)
Definition str : Type := list N.

(** The eight bars U+2581 .. U+2588, the full block U+2588 and the light
    shade U+2591. *)
Definition chars : str := [9601; 9602; 9603; 9604; 9605; 9606; 9607; 9608]%N.
Definition LOWER_EIGHTH : N := 9601.
Definition FULL_BLOCK : N := 9608.
Definition LIGHT_SHADE : N := 9617.

(** [c * n] for a one-character string [c]: empty when [n <= 0]. *)
Definition times (c : N) (n : Z) : str := repeat c (Z.to_nat n).

(** [s[i]]: a negative index counts from the end; outside the string it
    is an IndexError. *)
Definition index (s : str) (i : Z) : result N :=
  let len := Z.of_nat (List.length s) in
  let j := if (i <? 0)%Z then (i + len)%Z else i in
  if orb (j <? 0)%Z (len <=? j)%Z then Raise IndexError
  else match nth_error s (Z.to_nat j) with
       | Some c => Ok c
       | None => Raise IndexError
       end.

(** [a / b] on floats. *)
Definition truediv (a b : Q) : result Q :=
  if Qeq_bool b 0 then Raise ZeroDivisionError else Ok (a / b).

(** [max(data)]: the first of the largest items; ValueError on an empty
    list. *)
Definition max (data : list Q) : result Q :=
  match data with
  | [] => Raise ValueError
  | x :: rest =>
      Ok (fold_left (fun m v => if Qlt_le_dec m v then v else m) rest x)
  end.

(** [sum(data)] *)
Definition sum (data : list Q) : Q :=
  fold_left Qplus data 0.

(** [[f(val) for val in data]] and [''.join(chars[i] for i in l)]: the
    first item that raises ends the loop. *)
Fixpoint for_each {A B : Type} (f : A -> result B) (l : list A)
  : result (list B) :=
  match l with
  | [] => Ok []
  | x :: rest =>
      bind_result (f x) (fun y => bind_result (for_each f rest) (fun ys => Ok (y :: ys)))
  end.

(** [CPUDetailWidget._create_sparkline] *)
Definition cpu_create_sparkline (data : list Q) : result str :=
  match data with
  | [] => Ok []
  | _ :: _ =>
      bind_result (max data) (fun m =>
      let max_val := if Qlt_le_dec 0 m then m else 1 in
      bind_result (for_each
              (fun val =>
                 bind_result (truediv val max_val) (fun q =>
                 Ok (Gauge.int (q * inject_Z (Z.of_nat (List.length chars) - 1)))))
              data) (fun normalized =>
      for_each (index chars) normalized))
  end.

(** [NetworkDetailWidget._create_sparkline] *)
Definition net_create_sparkline (data : list Q) : result str :=
  match data with
  | [] => Ok (times LOWER_EIGHTH
                (Z.min (Z.of_nat (List.length data)) 60))
  | _ :: _ =>
      bind_result (max data) (fun m =>
      if Qeq_bool m 0
      then Ok (times LOWER_EIGHTH
                 (Z.min (Z.of_nat (List.length data)) 60))
      else
        let max_val := m in
        bind_result (for_each
                (fun val =>
                   bind_result (truediv val max_val) (fun q =>
                   Ok (Gauge.int (q * inject_Z (Z.of_nat (List.length chars) - 1)))))
                data) (fun normalized =>
        for_each (index chars) normalized))
  end.

(** [_create_progress_bar], the same in both widgets. *)
Definition create_progress_bar (percent : Q) (width : Z) : str :=
  let filled := Gauge.int (inject_Z width * percent / 100) in
  times FULL_BLOCK filled ++ times LIGHT_SHADE (width - filled).

(** The loop of [_format_bytes] over the units that are left. *)
Fixpoint format_bytes_loop (units : list string) (bytes_val : Q)
  : Q * string :=
  match units with
  | [] => (bytes_val, "PB"%string)
  | unit :: rest =>
      if Qlt_le_dec bytes_val 1024 then (bytes_val, unit)
      else format_bytes_loop rest (bytes_val / 1024)
  end.

(** [_format_bytes], the same in both widgets: the number that is handed
    to the two-decimal formatting, before it is rounded to two decimals,
    and the unit printed after it. *)
Definition format_bytes (bytes_val : Q) : Q * string :=
  format_bytes_loop ["B"; "KB"; "MB"; "GB"; "TB"]%string bytes_val.

(** [deque(maxlen=n).append(x)]: a full deque drops its oldest item. *)
Definition deque_append (maxlen : nat) (d : list Q) (x : Q) : list Q :=
  match maxlen with
  | O => []
  | S _ =>
      if (maxlen <=? List.length d)%nat then tl d ++ [x] else d ++ [x]
  end.

(** The instance fields of [NetworkDetailWidget] besides the monitor. *)
Record NetworkWidget : Type := mkNetworkWidget {
  history_up : list Q;
  history_down : list Q
}.

(** [NetworkDetailWidget.__init__] *)
Definition network_widget_init : NetworkWidget :=
  {| history_up := []; history_down := [] |}.

(** [NetworkDetailWidget.update_network] (the refresh of the display
    apart): [net] and [now] are what get_network_info reads. *)
Definition update_network (net : NetIO) (now : Q) (w : NetworkWidget)
  : M NetworkWidget :=
  bind (get_network_info net now) (fun net_info =>
  ret {| history_up :=
           deque_append 60 (history_up w)
             (send_rate_mib_s net_info * 1024 * 1024);
         history_down :=
           deque_append 60 (history_down w)
             (recv_rate_mib_s net_info * 1024 * 1024) |}).

(** The statistics block of [NetworkDetailWidget.render]: nothing when
    history_down is empty, otherwise the average and the maximum of the
    downloads and of the uploads. *)
Definition statistics (w : NetworkWidget) : result (option (Q * Q * Q * Q)) :=
  match history_down w with
  | [] => Ok None
  | _ :: _ =>
      bind_result (truediv (sum (history_down w))
              (inject_Z (Z.of_nat (List.length (history_down w)))))
        (fun avg_down =>
      bind_result (max (history_down w)) (fun max_down =>
      bind_result (truediv (sum (history_up w))
              (inject_Z (Z.of_nat (List.length (history_up w)))))
        (fun avg_up =>
      bind_result (max (history_up w)) (fun max_up =>
      Ok (Some (avg_down, max_down, avg_up, max_up))))))
  end.

(** The instance fields of [ProcessTableDetailWidget] besides the
    monitor. *)
Record ProcessWidget : Type := mkProcessWidget {
  widget_sort_by : string;
  num_processes : Z
}.

(** [ProcessTableDetailWidget.__init__] *)
Definition process_widget_init : ProcessWidget :=
  {| widget_sort_by := "cpu"; num_processes := 20 |}.

(** [ProcessTableDetailWidget.on_button_pressed], its assignments to the
    fields: [id] is event.button.id. *)
Definition on_button_pressed (id : string) (w : ProcessWidget)
  : ProcessWidget :=
  if String.eqb id "sort-cpu-btn" then
    {| widget_sort_by := "cpu"; num_processes := num_processes w |}
  else if String.eqb id "sort-mem-btn" then
    {| widget_sort_by := "memory"; num_processes := num_processes w |}
  else if String.eqb id "top-10-btn" then
    {| widget_sort_by := widget_sort_by w; num_processes := 10 |}
  else if String.eqb id "top-20-btn" then
    {| widget_sort_by := widget_sort_by w; num_processes := 20 |}
  else if String.eqb id "top-50-btn" then
    {| widget_sort_by := widget_sort_by w; num_processes := 50 |}
  else w.

(** The call of get_top_processes made by [update_processes]. *)
Definition update_processes (now : Q) (pp : list Z) (reads : list ProcRead)
    (w : ProcessWidget) : M (list ProcRow) :=
  get_top_processes (num_processes w) (widget_sort_by w) now pp reads.

End Tui.

(** ** The temperature cache on binary64 clock readings *)

(** The clock readings of [get_temperature_info] as the floats they are:
    binary64 numbers, with the subtraction and the comparison of the
    hardware (Rocq's primitive floats).  The record holds the four fields
    of the monitor the method reads or writes. *)
Module B64.

Record TempCache : Type := mkTempCache {
  _last_temp : option Temps;
  _last_temp_ts : float;
  enable_temps : bool;
  temp_refresh_seconds : float
}.

(** The cache part of [__init__]. *)
Definition init : TempCache :=
  {| _last_temp := None;
     _last_temp_ts := 0%float;
     enable_temps := false;
     temp_refresh_seconds := 5%float |}.

(** What [subprocess.run] does: one of the outcomes the method handles,
    or an exception its except clause does not list (PermissionError and
    other OSError, UnicodeDecodeError), which propagates to the caller. *)
Inductive Run : Type :=
| Handled (p : ProbeOutcome)
| Unhandled.

Inductive outcome (A : Type) : Type :=
| Returns (a : A)
| Propagates.
Arguments Returns {A} a.
Arguments Propagates {A}.

(** [get_temperature_info]: the external actions performed, what the
    call returns or that it raises, and the cache afterwards. *)
Definition get_temperature_info (run : Run) (now : float) (c : TempCache)
  : list Event * outcome (option Temps) * TempCache :=
  if negb (enable_temps c) then ([], Returns None, c)
  else
    if andb (PrimFloat.ltb (PrimFloat.sub now (_last_temp_ts c))
               (temp_refresh_seconds c))
            (match _last_temp c with Some _ => true | None => false end)
    then ([], Returns (_last_temp c), c)
    else
      match run with
      | Handled (Completed returncode stdout) =>
          if (returncode =? 0)%Z then
            let temps := parse_temps stdout in
            ([EvProbe], Returns temps,
             {| _last_temp := temps;
                _last_temp_ts := now;
                enable_temps := enable_temps c;
                temp_refresh_seconds := temp_refresh_seconds c |})
          else ([EvProbe], Returns None, c)
      | Handled TimeoutExpired => ([EvProbe], Returns None, c)
      | Handled FileNotFoundError => ([EvProbe], Returns None, c)
      | Unhandled => ([EvProbe], Propagates, c)
      end.

(** The exact value of a finite float, as a rational. *)
Definition exact (x : float) : option Q :=
  match Prim2SF x with
  | S754_zero _ => Some 0
  | S754_finite sign m e =>
      let v := inject_Z (Z.pos m) * Qpower 2 e in
      Some (if sign then - v else v)
  | S754_infinity _ => None
  | S754_nan => None
  end.



End B64.

(** How a reported rate relates to its counter delta when nothing is
    clamped: [delta] is new minus previous, [raw] the exact quotient of the
    delta by the window in MiB/s, [rate] the rate reported. *)
Definition follows_delta (delta : Z) (raw rate : Q) : Prop :=
  ((0 <= delta)%Z -> 0 <= rate) /\
  ((delta <= 0)%Z -> rate <= 0) /\
  (raw <= - (1 # 100) -> rate < 0).

(** ** Arithmetic of the primitives *)

Section Rounding.

Lemma round_half_even_nonneg (x : Q) :
  0 <= x -> (0 <= Py.round_half_even x)%Z.
Proof.
  intros Hx. unfold Py.round_half_even.
  assert (Hn : (0 <= Qnum x)%Z).
  { unfold Qle in Hx. simpl in Hx. lia. }
  assert (Hfl : (0 <= Qnum x / Z.pos (Qden x))%Z).
  { apply Z.div_pos; lia. }
  destruct (2 * (Qnum x mod Z.pos (Qden x)) ?= Z.pos (Qden x))%Z;
    [destruct (Z.even _) | | ]; lia.
Qed.

Lemma round_half_even_nonpos (x : Q) :
  x <= 0 -> (Py.round_half_even x <= 0)%Z.
Proof.
  intros Hx. unfold Py.round_half_even.
  assert (Hn : (Qnum x <= 0)%Z).
  { unfold Qle in Hx. simpl in Hx. lia. }
  pose proof (Z.mod_pos_bound (Qnum x) (Z.pos (Qden x)) ltac:(lia)) as Hr.
  pose proof (Z.div_mod (Qnum x) (Z.pos (Qden x)) ltac:(lia)) as Hdm.
  set (fl := (Qnum x / Z.pos (Qden x))%Z) in *.
  set (r := (Qnum x mod Z.pos (Qden x))%Z) in *.
  destruct (Z.compare_spec (2 * r) (Z.pos (Qden x))) as [He | Hl | Hg].
  - assert (fl < 0)%Z by nia. destruct (Z.even fl); lia.
  - assert (fl <= 0)%Z by nia. lia.
  - assert (fl < 0)%Z by nia. lia.
Qed.

Lemma round2_nonneg (x : Q) : 0 <= x -> 0 <= Py.round2 x.
Proof.
  intros Hx. unfold Py.round2, Qle. simpl.
  assert (H : 0 <= x * 100) by (apply Qmult_le_0_compat; [exact Hx | discriminate]).
  apply round_half_even_nonneg in H. lia.
Qed.

Lemma round2_nonpos (x : Q) : x <= 0 -> Py.round2 x <= 0.
Proof.
  intros Hx. unfold Py.round2, Qle. simpl.
  assert (H : x * 100 <= 0).
  { unfold Qle in *. simpl in *. lia. }
  apply round_half_even_nonpos in H. lia.
Qed.

Lemma round2_zero (x : Q) : x == 0 -> Py.round2 x == 0.
Proof.
  intros Hx. apply Qle_antisym.
  - apply round2_nonpos. rewrite Hx. apply Qle_refl.
  - apply round2_nonneg. rewrite Hx. apply Qle_refl.
Qed.

End Rounding.

Section Division.

Lemma truediv_ok (a b : Q) : ~ b == 0 -> Py.truediv a b = Py.Ok (a / b).
Proof.
  intros Hb. unfold Py.truediv.
  destruct (Qeq_bool b 0) eqn:E; [ | reflexivity].
  apply Qeq_bool_iff in E. contradiction.
Qed.

Lemma truediv_pos (a b : Q) : 0 < b -> Py.truediv a b = Py.Ok (a / b).
Proof.
  intros Hb. apply truediv_ok. intros E. rewrite E in Hb.
  exact (Qlt_irrefl 0 Hb).
Qed.

Lemma MIB_pos : 0 < MIB.
Proof. reflexivity. Qed.

Lemma EPSILON_pos : 0 < EPSILON.
Proof. reflexivity. Qed.

Lemma max_floor (a b : Q) : b <= Py.max a b.
Proof.
  unfold Py.max. destruct (Qlt_le_dec a b); [apply Qle_refl | assumption].
Qed.

Lemma window_floor (s : Monitor) (now : Q) : EPSILON <= window s now.
Proof. apply max_floor. Qed.

Lemma window_pos (s : Monitor) (now : Q) : 0 < window s now.
Proof.
  eapply Qlt_le_trans; [exact EPSILON_pos | apply window_floor].
Qed.

Lemma div_nonneg (a b : Q) : 0 <= a -> 0 < b -> 0 <= a / b.
Proof.
  intros Ha Hb. apply Qle_shift_div_l; [exact Hb | ].
  rewrite Qmult_0_l. exact Ha.
Qed.

Lemma div_nonpos (a b : Q) : a <= 0 -> 0 < b -> a / b <= 0.
Proof.
  intros Ha Hb. apply Qle_shift_div_r; [exact Hb | ].
  rewrite Qmult_0_l. exact Ha.
Qed.

Lemma div_zero (a b : Q) : a == 0 -> a / b == 0.
Proof.
  intros Ha. unfold Qdiv. rewrite Ha. apply Qmult_0_l.
Qed.

Lemma inject_Z_sub_nonneg (x y : Z) : (y <= x)%Z -> 0 <= inject_Z (x - y).
Proof.
  intros H. unfold Qle. simpl. lia.
Qed.

Lemma inject_Z_sub_nonpos (x y : Z) : (x <= y)%Z -> inject_Z (x - y) <= 0.
Proof.
  intros H. unfold Qle. simpl. lia.
Qed.

End Division.

(** ** What the two rate computations return *)

Section RateEquations.

Variable s : Monitor.
Variable now : Q.

(** [get_network_info] always returns: its result, the new state, and no
    external action. *)
Lemma get_network_info_eq (net : NetIO) :
  get_network_info net now s =
  Py.Ok ({| bytes_sent_mib := Py.round2 (inject_Z (bytes_sent net) / MIB);
            bytes_recv_mib := Py.round2 (inject_Z (bytes_recv net) / MIB);
            send_rate_mib_s :=
              Py.round2
                (inject_Z (bytes_sent net - bytes_sent (_prev_net_io s))
                 / window s now / MIB);
            recv_rate_mib_s :=
              Py.round2
                (inject_Z (bytes_recv net - bytes_recv (_prev_net_io s))
                 / window s now / MIB);
            stat_packets_sent := packets_sent net;
            stat_packets_recv := packets_recv net |},
         set_prev_sample_ts now (set_prev_net_io net s),
         []).
Proof.
  unfold get_network_info, bind, self, lift, assign, ret.
  rewrite !(truediv_pos _ (window s now)) by apply window_pos.
  rewrite !(truediv_pos _ MIB) by apply MIB_pos.
  reflexivity.
Qed.

(** [get_disk_info] with counters available and a stored previous
    record. *)
Lemma get_disk_info_eq (io prev : DiskIO) :
  _prev_disk_io s = Some prev ->
  get_disk_info (Some io) now s =
  Py.Ok (Some {| read_mib := Py.round2 (inject_Z (read_bytes io) / MIB);
                 write_mib := Py.round2 (inject_Z (write_bytes io) / MIB);
                 read_rate_mib_s :=
                   Py.round2
                     (inject_Z (read_bytes io - read_bytes prev)
                      / MIB / window s now);
                 write_rate_mib_s :=
                   Py.round2
                     (inject_Z (write_bytes io - write_bytes prev)
                      / MIB / window s now);
                 stat_read_count := read_count io;
                 stat_write_count := write_count io |},
         set_prev_disk_io (Some io) s,
         []).
Proof.
  intros Hprev.
  unfold get_disk_info, bind, self, lift, assign, ret, raise.
  rewrite Hprev.
  rewrite !(truediv_pos _ MIB) by apply MIB_pos.
  rewrite !(truediv_pos _ (window s now)) by apply window_pos.
  reflexivity.
Qed.

(** Without a stored previous record the attribute access fails. *)
Lemma get_disk_info_no_prev (io : DiskIO) :
  _prev_disk_io s = None ->
  get_disk_info (Some io) now s = Py.Raise Py.AttributeError.
Proof.
  intros Hprev.
  unfold get_disk_info, bind, self, raise. rewrite Hprev. reflexivity.
Qed.

(** Without counters nothing is computed and nothing changes. *)
Lemma get_disk_info_none :
  get_disk_info None now s = Py.Ok (None, s, []).
Proof. reflexivity. Qed.

End RateEquations.

(** ** The time window *)

(** C6: the window of both rate computations is floored at 1e-6 seconds,
    also when the clock reads the stored sample time again, so neither
    get_network_info nor get_disk_info raises ZeroDivisionError:
    get_network_info always returns, and get_disk_info returns unless the
    monitor holds no previous disk record. *)
Theorem window_floored_no_zero_division
    (s : Monitor) (now : Q) (net : NetIO) (io : option DiskIO) :
  EPSILON <= window s now /\
  0 < window s now /\
  window s (_prev_sample_ts s) == EPSILON /\
  (exists r s' t, get_network_info net now s = Py.Ok (r, s', t)) /\
  get_disk_info io now s <> Py.Raise Py.ZeroDivisionError /\
  (forall prev, _prev_disk_io s = Some prev ->
     exists r s' t, get_disk_info io now s = Py.Ok (r, s', t)).
Proof.
  split; [apply window_floor | ].
  split; [apply window_pos | ].
  split.
  { unfold window, Py.max.
    destruct (Qlt_le_dec (_prev_sample_ts s - _prev_sample_ts s) EPSILON) as [_ | Hle].
    - reflexivity.
    - exfalso. apply (Qle_not_lt _ _ Hle).
      setoid_replace (_prev_sample_ts s - _prev_sample_ts s) with 0 by ring.
      exact EPSILON_pos. }
  split.
  { rewrite get_network_info_eq. eauto. }
  split.
  { destruct io as [io | ].
    - destruct (_prev_disk_io s) as [prev | ] eqn:Hprev.
      + rewrite (get_disk_info_eq s now io prev Hprev). discriminate.
      + rewrite (get_disk_info_no_prev s now io Hprev). discriminate.
    - rewrite get_disk_info_none. discriminate. }
  intros prev Hprev. destruct io as [io | ].
  - rewrite (get_disk_info_eq s now io prev Hprev). eauto.
  - rewrite get_disk_info_none. eauto.
Qed.

(** ** Sign of the rates *)

(** C1, as stated, fails: the delta is not clamped.  After a counter
    reset the network and the disk rates are negative. *)
Lemma reset_counters_give_negative_rates :
  (exists r s' t,
     get_network_info Sample.net_reset 1 Sample.fresh = Py.Ok (r, s', t) /\
     send_rate_mib_s r == -200 /\ send_rate_mib_s r < 0 /\
     recv_rate_mib_s r < 0) /\
  (exists d s' t,
     get_disk_info (Some Sample.disk_reset) 1 Sample.fresh
       = Py.Ok (Some d, s', t) /\
     read_rate_mib_s d == -200 /\ read_rate_mib_s d < 0 /\
     write_rate_mib_s d < 0).
Proof.
  split.
  - eexists _, _, _. split; [vm_compute; reflexivity | ].
    repeat split; reflexivity.
  - eexists _, _, _. split; [vm_compute; reflexivity | ].
    repeat split; reflexivity.
Qed.

(** ** What the cache and the ranking return *)

Section CacheEquations.

Variable s : Monitor.
Variable now : Q.

(** Temperatures disabled: nothing happens. *)
Lemma get_temperature_info_disabled (p : ProbeOutcome) :
  enable_temps s = false ->
  get_temperature_info p now s = Py.Ok (None, s, []).
Proof.
  intros He. unfold get_temperature_info, bind, self, ret.
  rewrite He. reflexivity.
Qed.

(** A hit: a value is cached and it is younger than the refresh time. *)
Lemma get_temperature_info_hit (p : ProbeOutcome) (v : Temps) :
  enable_temps s = true ->
  _last_temp s = Some v ->
  now - _last_temp_ts s < temp_refresh_seconds s ->
  get_temperature_info p now s = Py.Ok (Some v, s, []).
Proof.
  intros He Hv Hlt. unfold get_temperature_info, bind, self, ret.
  rewrite He, Hv. simpl.
  destruct (Qlt_le_dec (now - _last_temp_ts s) (temp_refresh_seconds s)) as [_ | Hle].
  - reflexivity.
  - exfalso. exact (Qle_not_lt _ _ Hle Hlt).
Qed.

(** A miss: nothing is cached, or what is cached is too old.  The probe
    runs once; only an exit code 0 touches the record. *)
Lemma get_temperature_info_miss (p : ProbeOutcome) :
  enable_temps s = true ->
  _last_temp s = None \/ temp_refresh_seconds s <= now - _last_temp_ts s ->
  get_temperature_info p now s =
  Py.Ok
    (match p with
     | Completed rc out =>
         if (rc =? 0)%Z
         then (parse_temps out,
               set_last_temp_ts now (set_last_temp (parse_temps out) s),
               [EvProbe])
         else (None, s, [EvProbe])
     | TimeoutExpired => (None, s, [EvProbe])
     | FileNotFoundError => (None, s, [EvProbe])
     end).
Proof.
  intros He Hmiss. unfold get_temperature_info, bind, self, ret, emit, assign.
  rewrite He. simpl.
  assert (Hc : andb (if Qlt_le_dec (now - _last_temp_ts s) (temp_refresh_seconds s)
                     then true else false)
                    (match _last_temp s with Some _ => true | None => false end)
               = false).
  { destruct Hmiss as [Hn | Hold].
    - rewrite Hn. apply andb_false_r.
    - destruct (Qlt_le_dec (now - _last_temp_ts s) (temp_refresh_seconds s)) as [Hlt | _].
      + exfalso. exact (Qle_not_lt _ _ Hold Hlt).
      + reflexivity. }
  rewrite Hc.
  destruct p as [rc out | | ]; [ | reflexivity | reflexivity].
  destruct (rc =? 0)%Z; reflexivity.
Qed.

(** Every call is a disabled call, a hit or a miss. *)
Lemma get_temperature_info_cases :
  enable_temps s = false \/
  (enable_temps s = true /\
   exists v, _last_temp s = Some v /\
             now - _last_temp_ts s < temp_refresh_seconds s) \/
  (enable_temps s = true /\
   (_last_temp s = None \/ temp_refresh_seconds s <= now - _last_temp_ts s)).
Proof.
  destruct (enable_temps s); [right | left; reflexivity].
  destruct (_last_temp s) as [v | ].
  - destruct (Qlt_le_dec (now - _last_temp_ts s) (temp_refresh_seconds s)).
    + left. split; [reflexivity | ]. exists v. split; [reflexivity | assumption].
    + right. split; [reflexivity | right; assumption].
  - right. split; [reflexivity | left; reflexivity].
Qed.

(** The cache never raises and leaves the rate tracker and the priming
    state alone. *)
Lemma get_temperature_info_frame (p : ProbeOutcome) :
  exists r s' t,
    get_temperature_info p now s = Py.Ok (r, s', t) /\
    _prev_net_io s' = _prev_net_io s /\
    _prev_disk_io s' = _prev_disk_io s /\
    _prev_sample_ts s' = _prev_sample_ts s /\
    _proc_prime_ts s' = _proc_prime_ts s.
Proof.
  destruct get_temperature_info_cases as [Hd | [[He [v [Hv Hlt]]] | [He Hm]]].
  - rewrite (get_temperature_info_disabled p Hd). eexists _, _, _.
    repeat split.
  - rewrite (get_temperature_info_hit p v He Hv Hlt). eexists _, _, _.
    repeat split.
  - rewrite (get_temperature_info_miss p He Hm).
    destruct p as [rc out | | ]; [destruct (rc =? 0)%Z | | ];
      eexists _, _, _; repeat split.
Qed.

(** The priming loop touches no field. *)
Lemma prime_all_eq (pids : list Z) (m : Monitor) :
  prime_all pids m = Py.Ok (tt, m, map EvCpuPercent pids).
Proof.
  induction pids as [ | p rest IH]; [reflexivity | ].
  simpl. unfold bind, emit. rewrite IH. reflexivity.
Qed.

Lemma get_top_processes_eq (num : Z) (sort_by : string)
    (pp : list Z) (reads : list ProcRead) :
  get_top_processes num sort_by now pp reads s =
  Py.Ok (Py.slice_to (Py.sort_reverse (sort_key sort_by) (collect reads)) num,
         (if primes s now sort_by then set_proc_prime_ts now s else s),
         (if primes s now sort_by
          then EvPrimeIter :: map EvCpuPercent pp ++ [EvSleep (2 # 10)]
          else []) ++ [EvInfoIter]).
Proof.
  unfold get_top_processes, primes, bind, self, emit, assign, ret.
  destruct (andb _ _).
  - rewrite prime_all_eq. simpl. rewrite <- app_assoc. reflexivity.
  - reflexivity.
Qed.

Lemma get_top_processes_frame (num : Z) (sort_by : string)
    (pp : list Z) (reads : list ProcRead) :
  exists r s' t,
    get_top_processes num sort_by now pp reads s = Py.Ok (r, s', t) /\
    _prev_net_io s' = _prev_net_io s /\
    _prev_disk_io s' = _prev_disk_io s /\
    _prev_sample_ts s' = _prev_sample_ts s /\
    _last_temp s' = _last_temp s /\
    _last_temp_ts s' = _last_temp_ts s.
Proof.
  rewrite get_top_processes_eq. eexists _, _, _.
  split; [reflexivity | ].
  destruct (primes s now sort_by); repeat split.
Qed.

End CacheEquations.

(** ** First observation and unchanged counters *)

(** What the first call after construction reports: the delta since the
    counters read by the constructor, over the time since construction. *)
Lemma first_network_rate (t0 now : Q) (net0 net : NetIO) (d0 : option DiskIO) :
  exists r s',
    get_network_info net now (init t0 net0 d0) = Py.Ok (r, s', []) /\
    send_rate_mib_s r =
      Py.round2 (inject_Z (bytes_sent net - bytes_sent net0)
                 / Py.max (now - t0) EPSILON / MIB) /\
    recv_rate_mib_s r =
      Py.round2 (inject_Z (bytes_recv net - bytes_recv net0)
                 / Py.max (now - t0) EPSILON / MIB).
Proof.
  rewrite get_network_info_eq. eexists _, _.
  split; [reflexivity | split; reflexivity].
Qed.




(** ** The report *)

Section ReportEquations.

Variables (include_processes : bool) (top_n : Z) (sort_by : string).
Variable w : Tick.
Variable s : Monitor.

(** The disk section either fails on the missing previous record or
    returns, storing the counters it was given. *)
Lemma get_disk_info_cases :
  (exists c, disk_io w = Some c /\ _prev_disk_io s = None /\
             get_disk_info (disk_io w) (disk_now w) s
               = Py.Raise Py.AttributeError) \/
  (exists d s1,
     get_disk_info (disk_io w) (disk_now w) s = Py.Ok (d, s1, []) /\
     _prev_net_io s1 = _prev_net_io s /\
     _prev_sample_ts s1 = _prev_sample_ts s /\
     _prev_disk_io s1 =
       match disk_io w with Some c => Some c | None => _prev_disk_io s end).
Proof.
  destruct (disk_io w) as [c | ].
  - destruct (_prev_disk_io s) as [prev | ] eqn:Hprev.
    + right. rewrite (get_disk_info_eq s _ c prev Hprev).
      eexists _, _. repeat split.
    + left. exists c. rewrite (get_disk_info_no_prev s _ c Hprev).
      repeat split.
  - right. rewrite get_disk_info_none. eexists _, _. repeat split.
Qed.

Lemma get_json_report_raises (e : Py.exn) :
  get_disk_info (disk_io w) (disk_now w) s = Py.Raise e ->
  get_json_report include_processes top_n sort_by w s = Py.Raise e.
Proof.
  intros H. unfold get_json_report, bind. rewrite H. reflexivity.
Qed.

(** Once the disk section has returned, the report returns; its network
    section is computed on the state the disk section left, and the
    later sections keep the rate tracker as the network section left
    it. *)
Lemma get_json_report_returns (d : option DiskStats) (s1 : Monitor) :
  get_disk_info (disk_io w) (disk_now w) s = Py.Ok (d, s1, []) ->
  exists r s' t,
    get_json_report include_processes top_n sort_by w s = Py.Ok (r, s', t) /\
    disk r = d /\
    get_network_info (net_io w) (net_now w) s1
      = Py.Ok (network r,
               set_prev_sample_ts (net_now w) (set_prev_net_io (net_io w) s1),
               []) /\
    _prev_net_io s' = net_io w /\
    _prev_disk_io s' = _prev_disk_io s1 /\
    _prev_sample_ts s' = net_now w.
Proof.
  intros Hd. unfold get_json_report, bind. rewrite Hd.
  rewrite get_network_info_eq.
  destruct (get_temperature_info_frame
              (set_prev_sample_ts (net_now w) (set_prev_net_io (net_io w) s1))
              (temp_now w) (probe w))
    as (rt & s3 & tt3 & Et & Fn & Fd & Fs & _).
  simpl in Fn, Fd, Fs. rewrite Et.
  destruct include_processes.
  - destruct (get_top_processes_frame s3 (top_now w) top_n sort_by
                (prime_pids w) (proc_reads w))
      as (rp & s4 & tt4 & Ep & Gn & Gd & Gs & _).
    rewrite Ep. unfold ret. eexists _, _, _.
    split; [reflexivity | ]. simpl.
    repeat split; congruence.
  - unfold ret. eexists _, _, _.
    split; [reflexivity | ]. simpl.
    repeat split; congruence.
Qed.

End ReportEquations.

(** C8: when a report has been assembled and the next one reads the same
    network and disk counters, the second report is assembled too and its
    send, receive, read and write rates are all exactly 0 (its disk section
    is absent only when the disk counters are). *)
Theorem unchanged_counters_give_zero_rates
    (ip1 ip2 : bool) (n1 n2 : Z) (sb1 sb2 : string) (w1 w2 : Tick)
    (s0 s1 : Monitor) (r1 : Report) (t1 : list Event) :
  get_json_report ip1 n1 sb1 w1 s0 = Py.Ok (r1, s1, t1) ->
  net_io w2 = net_io w1 ->
  disk_io w2 = disk_io w1 ->
  exists r2 s2 t2,
    get_json_report ip2 n2 sb2 w2 s1 = Py.Ok (r2, s2, t2) /\
    send_rate_mib_s (network r2) == 0 /\
    recv_rate_mib_s (network r2) == 0 /\
    match disk r2 with
    | Some d => read_rate_mib_s d == 0 /\ write_rate_mib_s d == 0
    | None => disk_io w2 = None
    end.
Proof.
  intros H1 Hnet Hdisk.
  (* the first report: its disk section returned *)
  destruct (get_disk_info_cases w1 s0)
    as [(c & _ & _ & Hraise) | (d1 & sa & Hd1 & _ & _ & Hpd)].
  { rewrite (get_json_report_raises ip1 n1 sb1 w1 s0 _ Hraise) in H1.
    discriminate. }
  destruct (get_json_report_returns ip1 n1 sb1 w1 s0 d1 sa Hd1)
    as (r1' & s1' & t1' & E1 & _ & _ & Hn1 & Hd1' & _).
  rewrite E1 in H1. injection H1 as -> -> ->.
  rewrite Hpd in Hd1'.
  (* the second report: its disk section *)
  assert (Hd2 : exists d2 sb,
             get_disk_info (disk_io w2) (disk_now w2) s1 = Py.Ok (d2, sb, []) /\
             _prev_net_io sb = net_io w2 /\
             match d2 with
             | Some d => read_rate_mib_s d == 0 /\ write_rate_mib_s d == 0
             | None => disk_io w2 = None
             end).
  { rewrite Hdisk. destruct (disk_io w1) as [c | ].
    - rewrite (get_disk_info_eq s1 _ c c Hd1'). eexists _, _.
      split; [reflexivity | ]. split; [simpl; congruence | ].
      simpl. rewrite !Z.sub_diag.
      split; apply round2_zero; apply div_zero; apply div_zero; reflexivity.
    - rewrite get_disk_info_none. eexists _, _.
      split; [reflexivity | ]. split; [congruence | reflexivity]. }
  destruct Hd2 as (d2 & sb & Hd2 & Hnb & Hrates).
  destruct (get_json_report_returns ip2 n2 sb2 w2 s1 d2 sb Hd2)
    as (r2 & s2 & t2 & E2 & Hdr & Hnr & _).
  exists r2, s2, t2. split; [exact E2 | ].
  rewrite get_network_info_eq in Hnr.
  injection Hnr as Hnr. rewrite <- Hnr, Hdr. simpl.
  rewrite Hnb, !Z.sub_diag.
  repeat split; try exact Hrates;
    apply round2_zero; apply div_zero; apply div_zero; reflexivity.
Qed.

Lemma unchanged_counters_give_zero_rates_witness :
  exists r2 s2 t2,
    get_json_report true 2 "cpu"
      (Sample.tick 2 Sample.net201 (Some Sample.disk201))
      (set_prev_sample_ts 1
         (set_prev_net_io Sample.net201
            (set_prev_disk_io (Some Sample.disk201) Sample.fresh)))
      = Py.Ok (r2, s2, t2) /\
    send_rate_mib_s (network r2) == 0 /\
    recv_rate_mib_s (network r2) == 0 /\
    match disk r2 with
    | Some d => read_rate_mib_s d == 0 /\ write_rate_mib_s d == 0
    | None => disk_io (Sample.tick 2 Sample.net201 (Some Sample.disk201)) = None
    end.
Proof.
  apply (unchanged_counters_give_zero_rates
           true true 2 2 "cpu" "cpu"
           (Sample.tick 1 Sample.net201 (Some Sample.disk201))
           (Sample.tick 2 Sample.net201 (Some Sample.disk201))
           Sample.fresh _
           (mkReport
              (Some (mkDiskStats (20100 # 100) (20100 # 100) (100 # 100) (100 # 100) 510 510))
              (mkNetStats (20100 # 100) (20100 # 100) (100 # 100) (100 # 100) 1010 1010)
              None
              (Some [mkProcRow 2 (Some "b"%string) 30 (100 # 100) (Some "root"%string);
                     mkProcRow 3 (Some "c"%string) 30 (100 # 100) (Some "root"%string)]))
           [EvInfoIter]).
  - vm_compute. reflexivity.
  - reflexivity.
  - reflexivity.
Defined.


(** ** The temperature cache *)

(** C2, as stated, fails.  A probe that times out or exits with a non-zero
    code leaves the cached record (value and timestamp) as it was; and a
    None cached by an empty result at time 20 does not stop the probe from
    running again at time 21, well inside the 5 seconds. *)
Lemma failed_probe_not_cached_and_none_retried :
  get_temperature_info TimeoutExpired 20 Sample.cached45
    = Py.Ok (None, Sample.cached45, [EvProbe]) /\
  get_temperature_info Sample.probe_denied 20 Sample.cached45
    = Py.Ok (None, Sample.cached45, [EvProbe]) /\
  _last_temp Sample.cached45 = Some (mkTemps 45) /\
  _last_temp_ts Sample.cached45 = 10 /\
  exists s1 s2,
    get_temperature_info Sample.probe_empty 20 Sample.cached45
      = Py.Ok (None, s1, [EvProbe]) /\
    _last_temp s1 = None /\ _last_temp_ts s1 = 20 /\
    temp_refresh_seconds s1 = 5 /\
    get_temperature_info Sample.probe_empty 21 s1
      = Py.Ok (None, s2, [EvProbe]).
Proof.
  split; [vm_compute; reflexivity | ].
  split; [vm_compute; reflexivity | ].
  split; [reflexivity | ].
  split; [reflexivity | ].
  eexists _, _.
  split; [vm_compute; reflexivity | ].
  split; [reflexivity | ].
  split; [reflexivity | ].
  split; [reflexivity | ].
  vm_compute. reflexivity.
Qed.

(** C2, amended: with temperatures enabled, a call that misses (nothing is
    cached, or the cached record is at least the refresh time old) runs the
    probe exactly once.  When the probe exits with code 0 the record is
    replaced: the value is the parsed result, None if it is empty, and the
    timestamp is the time of the call.  In every other case (non-zero exit,
    timeout, missing executable) None is returned and the monitor is
    unchanged.  A cached None is always a miss. *)
Theorem miss_runs_probe_once
    (s : Monitor) (now : Q) (p : ProbeOutcome) :
  enable_temps s = true ->
  _last_temp s = None \/ temp_refresh_seconds s <= now - _last_temp_ts s ->
  exists r s',
    get_temperature_info p now s = Py.Ok (r, s', [EvProbe]) /\
    probe_runs [EvProbe] = 1%nat /\
    (forall out, p = Completed 0 out ->
       r = parse_temps out /\
       _last_temp s' = parse_temps out /\
       _last_temp_ts s' = now) /\
    ((forall out, p <> Completed 0 out) -> r = None /\ s' = s).
Proof.
  intros He Hmiss. rewrite (get_temperature_info_miss s now p He Hmiss).
  destruct p as [rc out | | ].
  - destruct (Z.eqb_spec rc 0) as [-> | Hrc].
    + eexists _, _. split; [reflexivity | ]. split; [reflexivity | ].
      split.
      * intros out' E. injection E as <-. repeat split.
      * intros Hne. exfalso. exact (Hne out eq_refl).
    + eexists _, _. split; [reflexivity | ]. split; [reflexivity | ].
      split.
      * intros out' E. injection E as E1 _. contradiction.
      * intros _. split; reflexivity.
  - eexists _, _. split; [reflexivity | ]. split; [reflexivity | ].
    split; [intros out E; discriminate | intros _; split; reflexivity].
  - eexists _, _. split; [reflexivity | ]. split; [reflexivity | ].
    split; [intros out E; discriminate | intros _; split; reflexivity].
Qed.

Lemma miss_runs_probe_once_witness :
  exists r s',
    get_temperature_info Sample.probe45 10 Sample.with_temps
      = Py.Ok (r, s', [EvProbe]) /\
    probe_runs [EvProbe] = 1%nat /\
    (forall out, Sample.probe45 = Completed 0 out ->
       r = parse_temps out /\
       _last_temp s' = parse_temps out /\
       _last_temp_ts s' = 10) /\
    ((forall out, Sample.probe45 <> Completed 0 out) ->
       r = None /\ s' = Sample.with_temps).
Proof.
  apply (miss_runs_probe_once Sample.with_temps 10 Sample.probe45).
  - reflexivity.
  - left. reflexivity.
Defined.

(** ** The priming pass *)

Section Priming.

Variable s : Monitor.
Variable now : Q.
Variables (num : Z) (sort_by : string).
Variables (pp : list Z) (reads : list ProcRead).

Lemma no_prime_iter_in_cpu_percent (pids : list Z) :
  filter is_prime_iter (map EvCpuPercent pids) = [].
Proof.
  induction pids as [ | p rest IH]; [reflexivity | exact IH].
Qed.

Lemma primes_iff :
  primes s now sort_by = true <->
  sort_by = "cpu"%string /\ 5 < now - _proc_prime_ts s.
Proof.
  unfold primes. rewrite andb_true_iff, String.eqb_eq.
  destruct (Qlt_le_dec 5 (now - _proc_prime_ts s)) as [Hlt | Hle].
  - tauto.
  - split; [intros [_ H]; discriminate | ].
    intros [_ H]. exfalso. exact (Qle_not_lt _ _ Hle H).
Qed.

(** One call: it returns; it makes one priming pass and records the time
    of the call when the guard holds, and otherwise makes none and keeps
    the recorded time. *)
Lemma get_top_processes_priming :
  exists r s' t,
    get_top_processes num sort_by now pp reads s = Py.Ok (r, s', t) /\
    ((sort_by = "cpu"%string /\ 5 < now - _proc_prime_ts s /\
      prime_passes t = 1%nat /\ _proc_prime_ts s' = now) \/
     (~ (sort_by = "cpu"%string /\ 5 < now - _proc_prime_ts s) /\
      prime_passes t = 0%nat /\ _proc_prime_ts s' = _proc_prime_ts s)).
Proof.
  rewrite get_top_processes_eq. eexists _, _, _.
  split; [reflexivity | ].
  destruct (primes s now sort_by) eqn:E.
  - left. apply primes_iff in E. destruct E as [E1 E2].
    repeat split; try assumption.
    unfold prime_passes. simpl.
    rewrite !filter_app, no_prime_iter_in_cpu_percent. reflexivity.
  - right. split.
    + intros H. apply primes_iff in H. congruence.
    + split; reflexivity.
Qed.

End Priming.

(** C9: a call of get_top_processes makes a priming pass exactly when the
    sort metric is cpu and more than 5 seconds have passed since the
    recorded priming time, and then records the time of the call; otherwise
    it makes no pass and leaves the recorded time unchanged.  Hence two
    consecutive calls that both prime are more than 5 seconds apart. *)
Theorem priming_respects_cooldown
    (s : Monitor)
    (num1 num2 : Z) (sb1 sb2 : string) (now1 now2 : Q)
    (pp1 pp2 : list Z) (rd1 rd2 : list ProcRead) :
  exists r1 s1 t1 r2 s2 t2,
    get_top_processes num1 sb1 now1 pp1 rd1 s = Py.Ok (r1, s1, t1) /\
    get_top_processes num2 sb2 now2 pp2 rd2 s1 = Py.Ok (r2, s2, t2) /\
    ((sb1 = "cpu"%string /\ 5 < now1 - _proc_prime_ts s /\
      prime_passes t1 = 1%nat /\ _proc_prime_ts s1 = now1) \/
     (~ (sb1 = "cpu"%string /\ 5 < now1 - _proc_prime_ts s) /\
      prime_passes t1 = 0%nat /\ _proc_prime_ts s1 = _proc_prime_ts s)) /\
    ((sb2 = "cpu"%string /\ 5 < now2 - _proc_prime_ts s1 /\
      prime_passes t2 = 1%nat /\ _proc_prime_ts s2 = now2) \/
     (~ (sb2 = "cpu"%string /\ 5 < now2 - _proc_prime_ts s1) /\
      prime_passes t2 = 0%nat /\ _proc_prime_ts s2 = _proc_prime_ts s1)) /\
    (prime_passes t1 = 1%nat -> prime_passes t2 = 1%nat -> 5 < now2 - now1).
Proof.
  destruct (get_top_processes_priming s now1 num1 sb1 pp1 rd1)
    as (r1 & s1 & t1 & E1 & H1).
  destruct (get_top_processes_priming s1 now2 num2 sb2 pp2 rd2)
    as (r2 & s2 & t2 & E2 & H2).
  exists r1, s1, t1, r2, s2, t2.
  repeat split; try assumption.
  intros P1 P2.
  destruct H1 as [(_ & _ & _ & Hts) | (_ & Z1 & _)]; [ | congruence].
  destruct H2 as [(_ & Hlt & _ & _) | (_ & Z2 & _)]; [ | congruence].
  rewrite Hts in Hlt. exact Hlt.
Qed.

(** ** Which method moves the sample time *)

(** C10: get_disk_info replaces the stored disk counters and leaves the
    sample time alone; get_network_info sets it to the time of its call;
    get_temperature_info and get_top_processes do not touch it.  So after
    a disk call at [t1], a network call at [t2] and a disk call at [t3],
    the window of the second disk call is max(t3 - t2, 1e-6): the time
    since the network call, over counters that are relative to the first
    disk call. *)
Theorem disk_info_keeps_sample_time
    (s : Monitor) (prev io1 io2 : DiskIO) (net : NetIO) (t1 t2 t3 : Q) :
  _prev_disk_io s = Some prev ->
  exists d1 s1 n s2 d2 s3,
    get_disk_info (Some io1) t1 s = Py.Ok (Some d1, s1, []) /\
    _prev_sample_ts s1 = _prev_sample_ts s /\
    _prev_disk_io s1 = Some io1 /\
    get_network_info net t2 s1 = Py.Ok (n, s2, []) /\
    _prev_sample_ts s2 = t2 /\
    _prev_disk_io s2 = Some io1 /\
    get_disk_info (Some io2) t3 s2 = Py.Ok (Some d2, s3, []) /\
    _prev_sample_ts s3 = t2 /\
    _prev_disk_io s3 = Some io2 /\
    read_rate_mib_s d2 =
      Py.round2 (inject_Z (read_bytes io2 - read_bytes io1) / MIB
                 / Py.max (t3 - t2) EPSILON) /\
    write_rate_mib_s d2 =
      Py.round2 (inject_Z (write_bytes io2 - write_bytes io1) / MIB
                 / Py.max (t3 - t2) EPSILON) /\
    (forall p now, exists r s' t,
       get_temperature_info p now s = Py.Ok (r, s', t) /\
       _prev_sample_ts s' = _prev_sample_ts s) /\
    (forall num sort_by now pp reads, exists r s' t,
       get_top_processes num sort_by now pp reads s = Py.Ok (r, s', t) /\
       _prev_sample_ts s' = _prev_sample_ts s).
Proof.
  intros Hprev.
  eexists _, _, _, _, _, _.
  split; [apply (get_disk_info_eq s t1 io1 prev Hprev) | ].
  split; [reflexivity | ].
  split; [reflexivity | ].
  split; [apply get_network_info_eq | ].
  split; [reflexivity | ].
  split; [reflexivity | ].
  split; [apply (get_disk_info_eq _ t3 io2 io1); reflexivity | ].
  split; [reflexivity | ].
  split; [reflexivity | ].
  split; [reflexivity | ].
  split; [reflexivity | ].
  split.
  - intros p now.
    destruct (get_temperature_info_frame s now p)
      as (r & s' & t & E & _ & _ & Hts & _).
    exists r, s', t. split; assumption.
  - intros num sort_by now pp reads.
    destruct (get_top_processes_frame s now num sort_by pp reads)
      as (r & s' & t & E & _ & _ & Hts & _).
    exists r, s', t. split; assumption.
Qed.


(** ** The ranking *)

Section Sorting.

Context {A : Type}.
Variable key : A -> Q.
Variable before : A -> A -> Prop.

Lemma insert_desc_length (x : A) (l : list A) :
  List.length (Py.insert_desc key x l) = S (List.length l).
Proof.
  induction l as [ | y l IH]; [reflexivity | ].
  simpl. destruct (Qle_bool (key y) (key x)); simpl; congruence.
Qed.

Lemma sort_reverse_length (l : list A) :
  List.length (Py.sort_reverse key l) = List.length l.
Proof.
  induction l as [ | x l IH]; [reflexivity | ].
  simpl. rewrite insert_desc_length. congruence.
Qed.

Lemma insert_desc_In (x y : A) (l : list A) :
  In y (Py.insert_desc key x l) -> y = x \/ In y l.
Proof.
  induction l as [ | z l IH]; simpl.
  - intros [H | []]. left. congruence.
  - destruct (Qle_bool (key z) (key x)); simpl.
    + intros [H | H]; [left; congruence | right; exact H].
    + intros [H | H]; [right; left; exact H | ].
      destruct (IH H) as [E | Hin]; [left; exact E | right; right; exact Hin].
Qed.

Lemma sort_reverse_In (y : A) (l : list A) :
  In y (Py.sort_reverse key l) -> In y l.
Proof.
  induction l as [ | x l IH]; simpl; [tauto | ].
  intros H. apply insert_desc_In in H.
  destruct H as [E | H]; [left; congruence | right; apply IH; exact H].
Qed.

Lemma ranked_key_le (a b : A) : ranked key before a b -> key b <= key a.
Proof.
  intros [H | [H _]]; [apply Qlt_le_weak; exact H | ].
  rewrite H. apply Qle_refl.
Qed.

Lemma ranked_of_le (a b : A) :
  key b <= key a -> before a b -> ranked key before a b.
Proof.
  intros Hle Hb. destruct (Qle_lt_or_eq _ _ Hle) as [Hlt | Heq].
  - left. exact Hlt.
  - right. split; [symmetry; exact Heq | exact Hb].
Qed.

(** Inserting an element that was before all the others keeps the list
    ranked. *)
Lemma insert_desc_ranked (x : A) (l : list A) :
  StronglySorted (ranked key before) l ->
  Forall (before x) l ->
  StronglySorted (ranked key before) (Py.insert_desc key x l).
Proof.
  induction l as [ | y l IH]; intros Hs Hb; simpl.
  - constructor; constructor.
  - apply StronglySorted_inv in Hs. destruct Hs as [Hs Hy].
    pose proof (Forall_inv Hb) as Hxy.
    pose proof (Forall_inv_tail Hb) as Hxl.
    destruct (Qle_bool (key y) (key x)) eqn:E.
    + apply Qle_bool_iff in E.
      constructor; [constructor; assumption | ].
      constructor; [apply ranked_of_le; assumption | ].
      rewrite Forall_forall in *. intros z Hz.
      apply ranked_of_le; [ | apply Hxl; exact Hz].
      apply Qle_trans with (key y); [ | exact E].
      apply ranked_key_le. apply Hy. exact Hz.
    + assert (Hlt : key x < key y).
      { apply Qnot_le_lt. intros H. apply Qle_bool_iff in H. congruence. }
      constructor; [apply IH; assumption | ].
      rewrite Forall_forall in *. intros z Hz.
      apply insert_desc_In in Hz. destruct Hz as [-> | Hz].
      * left. exact Hlt.
      * apply Hy. exact Hz.
Qed.

(** The sort is stable: from a list arranged by [before] it produces a
    ranked list. *)
Lemma sort_reverse_ranked (l : list A) :
  StronglySorted before l ->
  StronglySorted (ranked key before) (Py.sort_reverse key l).
Proof.
  induction l as [ | x l IH]; intros Hs; simpl.
  - constructor.
  - apply StronglySorted_inv in Hs. destruct Hs as [Hs Hx].
    apply insert_desc_ranked; [apply IH; exact Hs | ].
    rewrite Forall_forall in *. intros z Hz.
    apply Hx. apply sort_reverse_In. exact Hz.
Qed.

End Sorting.

Section SortedLists.

Context {A : Type}.
Variable R : A -> A -> Prop.

Lemma firstn_incl (n : nat) (l : list A) (z : A) :
  In z (firstn n l) -> In z l.
Proof.
  revert n. induction l as [ | a l IH]; intros [ | n]; simpl; try tauto.
  intros [H | H]; [left; exact H | right; apply (IH n); exact H].
Qed.

Lemma StronglySorted_firstn (n : nat) (l : list A) :
  StronglySorted R l -> StronglySorted R (firstn n l).
Proof.
  intros Hs. revert n.
  induction Hs as [ | a l Hs IH Ha]; intros [ | n]; simpl; try constructor.
  - apply IH.
  - rewrite Forall_forall in *. intros z Hz.
    apply Ha. apply (firstn_incl n). exact Hz.
Qed.

Lemma StronglySorted_slice_to (num : Z) (l : list A) :
  StronglySorted R l -> StronglySorted R (Py.slice_to l num).
Proof.
  intros Hs. unfold Py.slice_to.
  destruct (0 <=? num)%Z; apply StronglySorted_firstn; exact Hs.
Qed.


Lemma StronglySorted_trivial (l : list A) :
  StronglySorted (fun _ _ : A => True) l.
Proof.
  induction l; constructor; [assumption | ].
  apply Forall_forall. intros; exact I.
Qed.

End SortedLists.

Lemma StronglySorted_weaken {A : Type} (R R' : A -> A -> Prop) (l : list A) :
  (forall a b, R a b -> R' a b) ->
  StronglySorted R l -> StronglySorted R' l.
Proof.
  intros HR. induction 1 as [ | a l Hs IH Ha]; constructor.
  - exact IH.
  - eapply Forall_impl; [ | exact Ha]. apply HR.
Qed.

Lemma collect_length (reads : list ProcRead) :
  List.length (collect reads) = List.length (filter read_ok reads).
Proof.
  induction reads as [ | [info | ] rest IH]; simpl; congruence.
Qed.

Lemma sort_key_memory : sort_key "memory" = memory_percent.
Proof. reflexivity. Qed.

Lemma sort_key_other (sort_by : string) :
  sort_by <> "memory"%string -> sort_key sort_by = cpu_percent.
Proof.
  intros Hne. unfold sort_key.
  destruct (String.eqb_spec sort_by "cpu") as [-> | Hc]; [reflexivity | ].
  destruct (String.eqb_spec sort_by "memory") as [-> | Hm]; [congruence | ].
  reflexivity.
Qed.

(** C4: for every process table and every num >= 0, get_top_processes
    returns a list of exactly min(num, number of processes read without
    error) rows, in descending order of memory_percent when sort_by is
    'memory' and of cpu_percent otherwise. *)
Theorem top_processes_length_and_order
    (s : Monitor) (num : Z) (sort_by : string) (now : Q)
    (pp : list Z) (reads : list ProcRead) :
  (0 <= num)%Z ->
  exists r s' t,
    get_top_processes num sort_by now pp reads s = Py.Ok (r, s', t) /\
    List.length r
      = Nat.min (Z.to_nat num) (List.length (filter read_ok reads)) /\
    (sort_by = "memory"%string ->
       StronglySorted (descending memory_percent) r) /\
    (sort_by <> "memory"%string ->
       StronglySorted (descending cpu_percent) r).
Proof.
  intros Hnum. rewrite get_top_processes_eq. eexists _, _, _.
  split; [reflexivity | ].
  assert (Hdesc : forall key,
             StronglySorted (descending key)
               (Py.slice_to (Py.sort_reverse key (collect reads)) num)).
  { intros key. apply StronglySorted_slice_to.
    apply StronglySorted_weaken with (R := ranked key (fun _ _ => True)).
    - intros a b. apply ranked_key_le.
    - apply sort_reverse_ranked. apply StronglySorted_trivial. }
  split.
  - unfold Py.slice_to. destruct (Z.leb_spec 0 num) as [_ | Hneg]; [ | lia].
    rewrite length_firstn, sort_reverse_length, collect_length. reflexivity.
  - split.
    + intros ->. rewrite sort_key_memory. apply Hdesc.
    + intros Hne. rewrite (sort_key_other sort_by Hne). apply Hdesc.
Qed.

Lemma top_processes_length_and_order_witness :
  exists r s' t,
    get_top_processes 2 "cpu" 10 [1; 2; 3]%Z Sample.table_asc Sample.fresh
      = Py.Ok (r, s', t) /\
    List.length r
      = Nat.min (Z.to_nat 2) (List.length (filter read_ok Sample.table_asc)) /\
    ("cpu"%string = "memory"%string ->
       StronglySorted (descending memory_percent) r) /\
    ("cpu"%string <> "memory"%string ->
       StronglySorted (descending cpu_percent) r).
Proof.
  apply (top_processes_length_and_order
           Sample.fresh 2 "cpu" 10 [1; 2; 3]%Z Sample.table_asc).
  lia.
Defined.




Lemma disk_info_keeps_sample_time_witness :
  exists d1 s1 n s2 d2 s3,
    get_disk_info (Some Sample.disk201) 1 Sample.fresh
      = Py.Ok (Some d1, s1, []) /\
    _prev_sample_ts s1 = _prev_sample_ts Sample.fresh /\
    _prev_disk_io s1 = Some Sample.disk201 /\
    get_network_info Sample.net201 2 s1 = Py.Ok (n, s2, []) /\
    _prev_sample_ts s2 = 2 /\
    _prev_disk_io s2 = Some Sample.disk201 /\
    get_disk_info (Some Sample.disk201) 3 s2 = Py.Ok (Some d2, s3, []) /\
    _prev_sample_ts s3 = 2 /\
    _prev_disk_io s3 = Some Sample.disk201 /\
    read_rate_mib_s d2 =
      Py.round2 (inject_Z (read_bytes Sample.disk201 - read_bytes Sample.disk201)
                 / MIB / Py.max (3 - 2) EPSILON) /\
    write_rate_mib_s d2 =
      Py.round2 (inject_Z (write_bytes Sample.disk201 - write_bytes Sample.disk201)
                 / MIB / Py.max (3 - 2) EPSILON) /\
    (forall p now, exists r s' t,
       get_temperature_info p now Sample.fresh = Py.Ok (r, s', t) /\
       _prev_sample_ts s' = _prev_sample_ts Sample.fresh) /\
    (forall num sort_by now pp reads, exists r s' t,
       get_top_processes num sort_by now pp reads Sample.fresh
         = Py.Ok (r, s', t) /\
       _prev_sample_ts s' = _prev_sample_ts Sample.fresh).
Proof.
  apply (disk_info_keeps_sample_time
           Sample.fresh Sample.disk200 Sample.disk201 Sample.disk201
           Sample.net201 1 2 3).
  reflexivity.
Defined.

(** ** More on rounding: accuracy and monotonicity *)

Section RoundingAccuracy.

(** The rounded integer is the floor or the next integer, according to
    the fractional part, ties going to the even one. *)
Lemma round_half_even_cases (x : Q) :
  (Py.round_half_even x = Qfloor x /\
   (x - inject_Z (Qfloor x) < 1 # 2 \/
    (x - inject_Z (Qfloor x) == 1 # 2 /\ Z.even (Qfloor x) = true))) \/
  (Py.round_half_even x = (Qfloor x + 1)%Z /\
   ((1 # 2) < x - inject_Z (Qfloor x) \/
    (x - inject_Z (Qfloor x) == 1 # 2 /\ Z.even (Qfloor x) = false))).
Proof.
  destruct x as [n d]. unfold Py.round_half_even. simpl Qnum. simpl Qden.
  simpl Qfloor.
  pose proof (Z.div_mod n (Z.pos d) ltac:(lia)) as Hdm.
  pose proof (Z.mod_pos_bound n (Z.pos d) ltac:(lia)) as Hr.
  set (f := (n / Z.pos d)%Z) in *. set (r := (n mod Z.pos d)%Z) in *.
  clearbody f r.
  unfold Qlt, Qeq, Qminus, Qplus, Qopp, inject_Z. simpl Qnum. simpl Qden.
  rewrite !Pos2Z.inj_mul.
  destruct (Z.compare_spec (2 * r) (Z.pos d)) as [He | Hl | Hg].
  - destruct (Z.even f) eqn:Ev.
    + left. split; [reflexivity | right]. split; [nia | reflexivity].
    + right. split; [reflexivity | right]. split; [nia | reflexivity].
  - left. split; [reflexivity | left; nia].
  - right. split; [reflexivity | left; nia].
Qed.

Lemma round_half_even_monotone (x y : Q) :
  x <= y -> (Py.round_half_even x <= Py.round_half_even y)%Z.
Proof.
  intros Hxy. pose proof (Qfloor_resp_le x y Hxy) as Hf.
  destruct (round_half_even_cases x) as [[-> Hx] | [-> Hx]];
    destruct (round_half_even_cases y) as [[-> Hy] | [-> Hy]]; try lia.
  destruct (Z.eq_dec (Qfloor x) (Qfloor y)) as [E | NE]; [ | lia].
  exfalso. rewrite E in Hx.
  destruct Hx as [Hx | [Hx Ox]]; destruct Hy as [Hy | [Hy Ey]];
    try lra; congruence.
Qed.

(** [round(x, 2)] preserves the order. *)
Lemma round2_monotone (x y : Q) :
  x <= y -> Py.round2 x <= Py.round2 y.
Proof.
  intros Hxy. unfold Py.round2, Qle. simpl.
  assert (H : x * 100 <= y * 100) by lra.
  apply round_half_even_monotone in H. lia.
Qed.

End RoundingAccuracy.

(** ** Consecutive calls *)

(** X2: two calls of get_network_info in a row: the second reports the
    delta between the two readings over the time between the two calls
    (at least 1e-6), whatever the monitor held before the first. *)
Theorem network_rate_relative_to_previous_call
    (s : Monitor) (net1 net2 : NetIO) (t1 t2 : Q) :
  exists r1 s1 r2 s2,
    get_network_info net1 t1 s = Py.Ok (r1, s1, []) /\
    get_network_info net2 t2 s1 = Py.Ok (r2, s2, []) /\
    send_rate_mib_s r2 =
      Py.round2 (inject_Z (bytes_sent net2 - bytes_sent net1)
                 / Py.max (t2 - t1) EPSILON / MIB) /\
    recv_rate_mib_s r2 =
      Py.round2 (inject_Z (bytes_recv net2 - bytes_recv net1)
                 / Py.max (t2 - t1) EPSILON / MIB) /\
    _prev_net_io s2 = net2 /\ _prev_sample_ts s2 = t2.
Proof.
  eexists _, _, _, _.
  split; [apply get_network_info_eq | ].
  split; [apply get_network_info_eq | ].
  repeat split.
Qed.

(** ** Memory, uptime and battery *)

Section GaugeFacts.

Lemma gib_quotient_monotone (a b : Z) :
  (a <= b)%Z -> inject_Z a / Gauge.GIB <= inject_Z b / Gauge.GIB.
Proof.
  intros H. rewrite Zle_Qle in H. unfold Qdiv.
  apply Qmult_le_compat_r; [exact H | discriminate].
Qed.

Lemma int_of_integer (z : Z) : Gauge.int (inject_Z z) = z.
Proof. unfold Gauge.int. simpl. apply Z.quot_1_r. Qed.

(** The floor division brackets the dividend. *)
Lemma floordiv_bounds (x y : Q) :
  0 < y ->
  y * Gauge.floordiv x y <= x /\ x < y * Gauge.floordiv x y + y.
Proof.
  intros Hy. unfold Gauge.floordiv.
  pose proof (Qfloor_le (x / y)) as Hlo.
  pose proof (Qlt_floor (x / y)) as Hhi.
  rewrite inject_Z_plus in Hhi. change (inject_Z 1) with 1 in Hhi.
  set (f := inject_Z (Qfloor (x / y))) in *.
  assert (E : x == y * (x / y)) by (field; lra).
  assert (H1 : y * f <= y * (x / y)) by (apply Qmult_le_l; assumption).
  assert (H2 : y * (x / y) < y * (f + 1)) by (apply Qmult_lt_l; assumption).
  split; lra.
Qed.

(** An integer that brackets [x] within one unit is its floor. *)
Lemma floor_unique (x : Q) (n : Z) :
  inject_Z n <= x -> x < inject_Z n + 1 -> Qfloor x = n.
Proof.
  intros Hlo Hhi.
  pose proof (Qfloor_le x) as Flo. pose proof (Qlt_floor x) as Fhi.
  rewrite inject_Z_plus in Fhi. change (inject_Z 1) with 1 in Fhi.
  assert (H1 : inject_Z n < inject_Z (Qfloor x + 1)).
  { rewrite inject_Z_plus. change (inject_Z 1) with 1. lra. }
  assert (H2 : inject_Z (Qfloor x) < inject_Z (n + 1)).
  { rewrite inject_Z_plus. change (inject_Z 1) with 1. lra. }
  rewrite <- Zlt_Qlt in H1, H2. lia.
Qed.

End GaugeFacts.

(** X3: get_memory_info never reports more used or available memory than
    total memory, nor more used swap than total swap, when psutil does
    not: rounding to two decimals keeps the order. *)
Theorem memory_rounding_keeps_order
    (mem : Gauge.VirtualMemory) (swap : Gauge.SwapMemory) :
  (Gauge.vm_used mem <= Gauge.vm_total mem)%Z ->
  (Gauge.vm_available mem <= Gauge.vm_total mem)%Z ->
  (Gauge.sw_used swap <= Gauge.sw_total swap)%Z ->
  Gauge.used_gb (Gauge.get_memory_info mem swap)
    <= Gauge.total_gb (Gauge.get_memory_info mem swap) /\
  Gauge.available_gb (Gauge.get_memory_info mem swap)
    <= Gauge.total_gb (Gauge.get_memory_info mem swap) /\
  Gauge.swap_used_gb (Gauge.get_memory_info mem swap)
    <= Gauge.swap_total_gb (Gauge.get_memory_info mem swap).
Proof.
  intros Hu Ha Hs. simpl.
  repeat split; apply round2_monotone; apply gib_quotient_monotone;
    assumption.
Qed.

Lemma memory_rounding_keeps_order_witness :
  Gauge.used_gb
    (Gauge.get_memory_info
       (Gauge.mkVirtualMemory 17179869184 4000000000 12000000000 (768 # 10))
       (Gauge.mkSwapMemory 2147483648 1000000 0))
    <= Gauge.total_gb
         (Gauge.get_memory_info
            (Gauge.mkVirtualMemory 17179869184 4000000000 12000000000 (768 # 10))
            (Gauge.mkSwapMemory 2147483648 1000000 0)) /\
  Gauge.available_gb
    (Gauge.get_memory_info
       (Gauge.mkVirtualMemory 17179869184 4000000000 12000000000 (768 # 10))
       (Gauge.mkSwapMemory 2147483648 1000000 0))
    <= Gauge.total_gb
         (Gauge.get_memory_info
            (Gauge.mkVirtualMemory 17179869184 4000000000 12000000000 (768 # 10))
            (Gauge.mkSwapMemory 2147483648 1000000 0)) /\
  Gauge.swap_used_gb
    (Gauge.get_memory_info
       (Gauge.mkVirtualMemory 17179869184 4000000000 12000000000 (768 # 10))
       (Gauge.mkSwapMemory 2147483648 1000000 0))
    <= Gauge.swap_total_gb
         (Gauge.get_memory_info
            (Gauge.mkVirtualMemory 17179869184 4000000000 12000000000 (768 # 10))
            (Gauge.mkSwapMemory 2147483648 1000000 0)).
Proof.
  apply (memory_rounding_keeps_order
           (Gauge.mkVirtualMemory 17179869184 4000000000 12000000000 (768 # 10))
           (Gauge.mkSwapMemory 2147483648 1000000 0));
    simpl; lia.
Defined.

(** X4: when the clock is not before the boot time, the days, hours and
    minutes of get_system_uptime satisfy 0 <= days, 0 <= hours < 24 and
    0 <= minutes < 60, and together they are the uptime rounded down to
    the minute:
    86400 days + 3600 hours + 60 minutes <= now - boot_time, which is less
    than one minute more. *)
Theorem uptime_components (boot_time now : Q) :
  boot_time <= now ->
  let u := Gauge.get_system_uptime boot_time now in
  (0 <= Gauge.uptime_days u)%Z /\
  (0 <= Gauge.uptime_hours u < 24)%Z /\
  (0 <= Gauge.uptime_minutes u < 60)%Z /\
  inject_Z (86400 * Gauge.uptime_days u + 3600 * Gauge.uptime_hours u
            + 60 * Gauge.uptime_minutes u)
    <= now - boot_time /\
  now - boot_time
    < inject_Z (86400 * Gauge.uptime_days u + 3600 * Gauge.uptime_hours u
                + 60 * Gauge.uptime_minutes u) + 60.
Proof.
  intros Hboot.
  unfold Gauge.get_system_uptime. cbv zeta. simpl Gauge.uptime_days.
  simpl Gauge.uptime_hours. simpl Gauge.uptime_minutes.
  set (u := now - boot_time).
  assert (Hu : 0 <= u) by (unfold u; lra).
  (* days *)
  destruct (floordiv_bounds u 86400 ltac:(reflexivity)) as [Dlo Dhi].
  (* hours inside the day *)
  destruct (floordiv_bounds (Gauge.fmod u 86400) 3600 ltac:(reflexivity))
    as [Hlo Hhi].
  (* minutes inside the hour *)
  destruct (floordiv_bounds u 3600 ltac:(reflexivity)) as [Klo Khi].
  destruct (floordiv_bounds (Gauge.fmod u 3600) 60 ltac:(reflexivity))
    as [Mlo Mhi].
  unfold Gauge.fmod in *. unfold Gauge.floordiv in *.
  rewrite !int_of_integer.
  set (D := Qfloor (u / 86400)) in *.
  set (H := Qfloor ((u - 86400 * inject_Z D) / 3600)) in *.
  set (K := Qfloor (u / 3600)) in *.
  set (m := Qfloor ((u - 3600 * inject_Z K) / 60)) in *.
  (* the hour count of the whole uptime is 24 days + hours *)
  assert (EK : K = (24 * D + H)%Z).
  { assert (Klo' : inject_Z (24 * D + H) <= u / 3600).
    { apply Qle_shift_div_l; [reflexivity | ].
      rewrite inject_Z_plus, inject_Z_mult. change (inject_Z 24) with 24. lra. }
    assert (Khi' : u / 3600 < inject_Z (24 * D + H) + 1).
    { apply Qlt_shift_div_r; [reflexivity | ].
      rewrite inject_Z_plus, inject_Z_mult. change (inject_Z 24) with 24. lra. }
    exact (floor_unique (u / 3600) (24 * D + H) Klo' Khi'). }
  assert (EKq : inject_Z K == 24 * inject_Z D + inject_Z H).
  { rewrite EK, inject_Z_plus, inject_Z_mult. reflexivity. }
  assert (H0 : inject_Z (-1) < inject_Z H)
    by (change (inject_Z (-1)) with (-1 # 1); lra).
  assert (H24 : inject_Z H < inject_Z 24) by (change (inject_Z 24) with 24; lra).
  assert (M0 : inject_Z (-1) < inject_Z m)
    by (change (inject_Z (-1)) with (-1 # 1); lra).
  assert (M60 : inject_Z m < inject_Z 60) by (change (inject_Z 60) with 60; lra).
  assert (D0 : inject_Z (-1) < inject_Z D)
    by (change (inject_Z (-1)) with (-1 # 1); lra).
  rewrite <- Zlt_Qlt in H0, M0, H24, M60, D0.
  split; [lia | ]. split; [lia | ]. split; [lia | ].
  rewrite !inject_Z_plus, !inject_Z_mult.
  change (inject_Z 86400) with 86400. change (inject_Z 3600) with 3600.
  change (inject_Z 60) with 60.
  split; lra.
Qed.

Lemma uptime_components_witness :
  let u := Gauge.get_system_uptime 1700000000 (1700090061 + (1 # 2)) in
  (0 <= Gauge.uptime_days u)%Z /\
  (0 <= Gauge.uptime_hours u < 24)%Z /\
  (0 <= Gauge.uptime_minutes u < 60)%Z /\
  inject_Z (86400 * Gauge.uptime_days u + 3600 * Gauge.uptime_hours u
            + 60 * Gauge.uptime_minutes u)
    <= 1700090061 + (1 # 2) - 1700000000 /\
  1700090061 + (1 # 2) - 1700000000
    < inject_Z (86400 * Gauge.uptime_days u + 3600 * Gauge.uptime_hours u
                + 60 * Gauge.uptime_minutes u) + 60.
Proof.
  apply (uptime_components 1700000000 (1700090061 + (1 # 2))).
  vm_compute. discriminate.
Defined.

(** X5: get_battery_info returns None without a battery.  With one,
    time_left_minutes is None exactly when secsleft is
    POWER_TIME_UNLIMITED; otherwise it is secsleft in whole minutes,
    rounded down, so a negative secsleft (the marker for an unknown time)
    is reported as a negative number of minutes. *)
Theorem battery_time_left (POWER_TIME_UNLIMITED : Z) (b : Gauge.Battery) :
  Gauge.get_battery_info POWER_TIME_UNLIMITED None = None /\
  exists info,
    Gauge.get_battery_info POWER_TIME_UNLIMITED (Some b) = Some info /\
    (Gauge.time_left_minutes info = None <->
     Gauge.secsleft b = POWER_TIME_UNLIMITED) /\
    (forall m,
       Gauge.time_left_minutes info = Some m ->
       (60 * m <= Gauge.secsleft b < 60 * m + 60)%Z /\
       ((Gauge.secsleft b < 0)%Z -> (m < 0)%Z) /\
       ((0 <= Gauge.secsleft b)%Z -> (0 <= m)%Z)).
Proof.
  split; [reflexivity | ].
  eexists. split; [reflexivity | ]. cbn [Gauge.time_left_minutes].
  destruct (Z.eqb_spec (Gauge.secsleft b) POWER_TIME_UNLIMITED) as [E | NE];
    cbn [negb].
  - split; [tauto | ]. intros m Hm. discriminate.
  - split; [split; [discriminate | contradiction] | ].
    intros m Hm. injection Hm as <-.
    pose proof (Z.div_mod (Gauge.secsleft b) 60 ltac:(lia)) as Hdm.
    pose proof (Z.mod_pos_bound (Gauge.secsleft b) 60 ltac:(lia)) as Hr.
    lia.
Qed.

(** ** Sessions: what every use of the monitor preserves *)

Section Sessions.

Lemma disk_step (io : option DiskIO) (now : Q) (s s' : Monitor)
    (r : option DiskStats) (t : list Event) :
  get_disk_info io now s = Py.Ok (r, s', t) ->
  same_config s s' /\ same_disk_presence s s' /\
  _prev_net_io s' = _prev_net_io s /\ _prev_sample_ts s' = _prev_sample_ts s.
Proof.
  unfold same_config, same_disk_presence. intros H.
  destruct io as [io | ].
  - destruct (_prev_disk_io s) as [prev | ] eqn:Hprev.
    + rewrite (get_disk_info_eq s now io prev Hprev) in H.
      injection H as _ <- _. simpl.
      repeat split; intros E; discriminate E.
    + rewrite (get_disk_info_no_prev s now io Hprev) in H. discriminate.
  - rewrite get_disk_info_none in H. injection H as _ <- _.
    repeat split; auto.
Qed.

Lemma network_step (net : NetIO) (now : Q) (s s' : Monitor)
    (r : NetStats) (t : list Event) :
  get_network_info net now s = Py.Ok (r, s', t) ->
  same_config s s' /\ same_disk_presence s s'.
Proof.
  unfold same_config, same_disk_presence.
  rewrite get_network_info_eq. intros H. injection H as _ <- _.
  simpl. repeat split; auto.
Qed.

Lemma temperature_step (p : ProbeOutcome) (now : Q) (s s' : Monitor)
    (r : option Temps) (t : list Event) :
  get_temperature_info p now s = Py.Ok (r, s', t) ->
  same_config s s' /\ same_disk_presence s s'.
Proof.
  unfold same_config, same_disk_presence. intros H.
  destruct (get_temperature_info_cases s now)
    as [Hd | [[He [v [Hv Hlt]]] | [He Hm]]].
  - rewrite (get_temperature_info_disabled s now p Hd) in H.
    injection H as _ <- _. repeat split; auto.
  - rewrite (get_temperature_info_hit s now p v He Hv Hlt) in H.
    injection H as _ <- _. repeat split; auto.
  - rewrite (get_temperature_info_miss s now p He Hm) in H.
    destruct p as [rc out | | ]; [destruct (rc =? 0)%Z | | ];
      injection H as _ <- _; simpl; repeat split; auto.
Qed.

Lemma top_step (num : Z) (sort_by : string) (now : Q) (pp : list Z)
    (reads : list ProcRead) (s s' : Monitor)
    (r : list ProcRow) (t : list Event) :
  get_top_processes num sort_by now pp reads s = Py.Ok (r, s', t) ->
  same_config s s' /\ same_disk_presence s s'.
Proof.
  unfold same_config, same_disk_presence.
  rewrite get_top_processes_eq. intros H. injection H as _ <- _.
  destruct (primes s now sort_by); simpl; repeat split; auto.
Qed.

Lemma same_config_trans (a b c : Monitor) :
  same_config a b -> same_config b c -> same_config a c.
Proof.
  unfold same_config. intros (A1 & A2 & A3) (B1 & B2 & B3).
  repeat split; congruence.
Qed.

Lemma same_disk_presence_trans (a b c : Monitor) :
  same_disk_presence a b -> same_disk_presence b c -> same_disk_presence a c.
Proof. unfold same_disk_presence. tauto. Qed.

Lemma report_step (ip : bool) (top_n : Z) (sort_by : string) (w : Tick)
    (s s' : Monitor) (r : Report) (t : list Event) :
  get_json_report ip top_n sort_by w s = Py.Ok (r, s', t) ->
  same_config s s' /\ same_disk_presence s s'.
Proof.
  unfold get_json_report, bind. intros H.
  destruct (get_disk_info (disk_io w) (disk_now w) s)
    as [[[d s1] t1] | e] eqn:Ed; [ | discriminate].
  destruct (get_network_info (net_io w) (net_now w) s1)
    as [[[n s2] t2] | e] eqn:En; [ | discriminate].
  destruct (get_temperature_info (probe w) (temp_now w) s2)
    as [[[tp s3] t3] | e] eqn:Et; [ | discriminate].
  apply disk_step in Ed. destruct Ed as (C1 & D1 & _).
  apply network_step in En. destruct En as (C2 & D2).
  apply temperature_step in Et. destruct Et as (C3 & D3).
  assert (C : same_config s s3)
    by (eapply same_config_trans; [eapply same_config_trans | ]; eassumption).
  assert (D : same_disk_presence s s3)
    by (eapply same_disk_presence_trans;
        [eapply same_disk_presence_trans | ]; eassumption).
  destruct ip.
  - destruct (get_top_processes top_n sort_by (top_now w) (prime_pids w)
                (proc_reads w) s3) as [[[p s4] t4] | e] eqn:Ep;
      [ | discriminate].
    apply top_step in Ep. destruct Ep as (C4 & D4).
    unfold ret in H. injection H as _ <- _. split.
    + eapply same_config_trans; eassumption.
    + eapply same_disk_presence_trans; eassumption.
  - unfold ret in H. injection H as _ <- _. split; assumption.
Qed.

Lemma step_preserves (s s' : Monitor) :
  step s s' -> same_config s s' /\ same_disk_presence s s'.
Proof.
  intros H. destruct H as [b s | io now s s' r t H | net now s s' r t H
                           | p now s s' r t H
                           | num sb now pp reads s s' r t H
                           | ip n sb w s s' r t H].
  - unfold same_config, same_disk_presence. simpl. repeat split; auto.
  - apply disk_step in H. tauto.
  - eapply network_step; exact H.
  - eapply temperature_step; exact H.
  - eapply top_step; exact H.
  - eapply report_step; exact H.
Qed.

Lemma reachable_preserves (s0 s : Monitor) :
  reachable s0 s -> same_config s0 s /\ same_disk_presence s0 s.
Proof.
  induction 1 as [ | s s' Hr [IHc IHd] Hs].
  - unfold same_config, same_disk_presence. repeat split; auto.
  - apply step_preserves in Hs. destruct Hs as [C D]. split.
    + eapply same_config_trans; eassumption.
    + eapply same_disk_presence_trans; eassumption.
Qed.

End Sessions.

(** X6: on a monitor constructed while disk counters exist, whatever
    methods have been called since, a previous disk record is still
    stored, so the rate computation of get_disk_info, called alone or by
    get_json_report, does not raise the AttributeError of a missing
    record; and the refresh time of the temperature cache is still 5
    seconds, start_time and network_io_start still what the constructor
    stored. *)
Theorem session_with_disk_keeps_baseline
    (t0 : Q) (net0 : NetIO) (d0 : DiskIO) (s : Monitor) :
  reachable (init t0 net0 (Some d0)) s ->
  (exists prev, _prev_disk_io s = Some prev) /\
  (forall io now, get_disk_info io now s <> Py.Raise Py.AttributeError) /\
  (forall ip top_n sort_by w,
     get_json_report ip top_n sort_by w s <> Py.Raise Py.AttributeError) /\
  temp_refresh_seconds s = 5 /\
  start_time s = t0 /\
  network_io_start s = net0.
Proof.
  intros Hr. apply reachable_preserves in Hr.
  destruct Hr as [(C1 & C2 & C3) D]. simpl in C1, C2, C3.
  assert (Hprev : exists prev, _prev_disk_io s = Some prev).
  { destruct (_prev_disk_io s) as [prev | ] eqn:E; [eauto | ].
    unfold same_disk_presence in D. simpl in D.
    destruct D as [_ D]. specialize (D E). discriminate. }
  split; [exact Hprev | ]. destruct Hprev as [prev Hprev].
  assert (Hdisk : forall io now, exists r s',
             get_disk_info io now s = Py.Ok (r, s', [])).
  { intros [io | ] now.
    - rewrite (get_disk_info_eq s now io prev Hprev). eauto.
    - rewrite get_disk_info_none. eauto. }
  split.
  { intros io now. destruct (Hdisk io now) as (r & s' & E).
    rewrite E. discriminate. }
  split; [ | repeat split; assumption].
  intros ip top_n sort_by w.
  destruct (Hdisk (disk_io w) (disk_now w)) as (d & s1 & Hd).
  destruct (get_json_report_returns ip top_n sort_by w s d s1 Hd)
    as (r & s' & t & E & _).
  rewrite E. discriminate.
Qed.

Lemma session_with_disk_keeps_baseline_witness :
  (exists prev,
     _prev_disk_io
       (set_prev_sample_ts 1
          (set_prev_net_io Sample.net201 Sample.with_temps)) = Some prev) /\
  (forall io now,
     get_disk_info io now
       (set_prev_sample_ts 1
          (set_prev_net_io Sample.net201 Sample.with_temps))
       <> Py.Raise Py.AttributeError) /\
  (forall ip top_n sort_by w,
     get_json_report ip top_n sort_by w
       (set_prev_sample_ts 1
          (set_prev_net_io Sample.net201 Sample.with_temps))
       <> Py.Raise Py.AttributeError) /\
  temp_refresh_seconds
    (set_prev_sample_ts 1
       (set_prev_net_io Sample.net201 Sample.with_temps)) = 5 /\
  start_time
    (set_prev_sample_ts 1
       (set_prev_net_io Sample.net201 Sample.with_temps)) = 0 /\
  network_io_start
    (set_prev_sample_ts 1
       (set_prev_net_io Sample.net201 Sample.with_temps)) = Sample.net200.
Proof.
  apply (session_with_disk_keeps_baseline 0 Sample.net200 Sample.disk200).
  eapply reach_step.
  - eapply reach_step; [apply reach_start | ].
    apply (step_enable_temps true).
  - eapply (step_network Sample.net201 1). apply get_network_info_eq.
Defined.

(** X7: on a monitor constructed while psutil had no disk counters, no
    previous disk record is ever stored: whatever methods have returned
    since, get_disk_info raises AttributeError as soon as disk counters
    are there, and so does get_json_report. *)
Theorem session_without_disk_never_recovers
    (t0 : Q) (net0 : NetIO) (s : Monitor) :
  reachable (init t0 net0 None) s ->
  _prev_disk_io s = None /\
  (forall io now,
     get_disk_info (Some io) now s = Py.Raise Py.AttributeError) /\
  (forall ip top_n sort_by w io,
     disk_io w = Some io ->
     get_json_report ip top_n sort_by w s = Py.Raise Py.AttributeError).
Proof.
  intros Hr. apply reachable_preserves in Hr. destruct Hr as [_ D].
  unfold same_disk_presence in D. simpl in D.
  assert (Hnone : _prev_disk_io s = None) by (apply D; reflexivity).
  split; [exact Hnone | ]. split.
  - intros io now. apply get_disk_info_no_prev. exact Hnone.
  - intros ip top_n sort_by w io Hw.
    apply get_json_report_raises. rewrite Hw.
    apply get_disk_info_no_prev. exact Hnone.
Qed.

Lemma session_without_disk_never_recovers_witness :
  _prev_disk_io
    (set_prev_sample_ts 1
       (set_prev_net_io Sample.net201 (init 0 Sample.net200 None))) = None /\
  (forall io now,
     get_disk_info (Some io) now
       (set_prev_sample_ts 1
          (set_prev_net_io Sample.net201 (init 0 Sample.net200 None)))
       = Py.Raise Py.AttributeError) /\
  (forall ip top_n sort_by w io,
     disk_io w = Some io ->
     get_json_report ip top_n sort_by w
       (set_prev_sample_ts 1
          (set_prev_net_io Sample.net201 (init 0 Sample.net200 None)))
       = Py.Raise Py.AttributeError).
Proof.
  apply (session_without_disk_never_recovers 0 Sample.net200).
  eapply reach_step; [apply reach_start | ].
  eapply (step_network Sample.net201 1). apply get_network_info_eq.
Defined.

(** ** The terminal interface: bars and sparklines *)

Section Truncation.

(** On a non-negative float, [int] is the floor. *)
Lemma int_nonneg_floor (x : Q) : 0 <= x -> Gauge.int x = Qfloor x.
Proof.
  intros Hx. destruct x as [n d]. unfold Gauge.int. simpl.
  apply Z.quot_div_nonneg; [ | lia].
  unfold Qle in Hx. simpl in Hx. lia.
Qed.

Lemma int_between (x : Q) (n : Z) :
  0 <= x -> x <= inject_Z n -> (0 <= Gauge.int x <= n)%Z.
Proof.
  intros H0 Hn. rewrite (int_nonneg_floor x H0). split.
  - change 0%Z with (Qfloor 0). apply Qfloor_resp_le. exact H0.
  - rewrite <- (Qfloor_Z n). apply Qfloor_resp_le. exact Hn.
Qed.

(** On a float at most [n <= 0], [int] is at most [n]. *)
Lemma int_below (x : Q) (n : Z) :
  (n <= 0)%Z -> x <= inject_Z n -> (Gauge.int x <= n)%Z.
Proof.
  intros Hn Hx. destruct x as [a d]. unfold Gauge.int. simpl.
  unfold Qle in Hx. simpl in Hx.
  assert (Ha : (a <= n * Z.pos d)%Z) by lia.
  assert (Hq : ((- a) / Z.pos d >= - n)%Z).
  { apply Z.le_ge. apply Z.div_le_lower_bound; [lia | nia]. }
  assert (E : (a ÷ Z.pos d = - ((- a) / Z.pos d))%Z).
  { rewrite <- (Z.opp_involutive a) at 1. rewrite Z.quot_opp_l by lia.
    rewrite Z.quot_div_nonneg by nia. reflexivity. }
  lia.
Qed.

End Truncation.

Section Strings.

Lemma times_length (c : N) (n : Z) :
  List.length (Tui.times c n) = Z.to_nat n.
Proof. unfold Tui.times. apply repeat_length. Qed.

Lemma index_chars_in_range (i : Z) :
  (0 <= i <= 7)%Z ->
  exists c, Tui.index Tui.chars i = Tui.Ok c /\ In c Tui.chars.
Proof.
  intros Hi.
  assert (H : i = 0%Z \/ i = 1%Z \/ i = 2%Z \/ i = 3%Z \/ i = 4%Z \/
              i = 5%Z \/ i = 6%Z \/ i = 7%Z) by lia.
  repeat (destruct H as [-> | H]); try subst i;
    (eexists; split; [reflexivity | simpl; tauto]).
Qed.

Lemma index_chars_below (i : Z) :
  (i <= -9)%Z -> Tui.index Tui.chars i = Tui.Raise Tui.IndexError.
Proof.
  intros Hi. unfold Tui.index.
  change (Z.of_nat (List.length Tui.chars)) with 8%Z. cbv zeta.
  destruct (Z.ltb_spec i 0) as [_ | H]; [ | lia].
  destruct (Z.ltb_spec (i + 8) 0) as [_ | H]; [reflexivity | lia].
Qed.

(** Indexing raises nothing but IndexError. *)
Lemma index_raises_index_error (s : Tui.str) (i : Z) (e : Tui.exn) :
  Tui.index s i = Tui.Raise e -> e = Tui.IndexError.
Proof.
  unfold Tui.index. cbv zeta.
  destruct (orb _ _); [congruence | ].
  destruct (nth_error s _); congruence.
Qed.

Lemma join_in_range (l : list Z) :
  Forall (fun i => (0 <= i <= 7)%Z) l ->
  exists s,
    Tui.for_each (Tui.index Tui.chars) l = Tui.Ok s /\
    List.length s = List.length l /\
    Forall (fun c => In c Tui.chars) s.
Proof.
  induction 1 as [ | i l Hi Hl (s & Es & Ls & Fs)].
  - exists []. repeat split. constructor.
  - destruct (index_chars_in_range i Hi) as (c & Ec & Hc).
    exists (c :: s). simpl. rewrite Ec. simpl. rewrite Es. simpl.
    repeat split; [congruence | constructor; assumption].
Qed.

Lemma join_out_of_range (l : list Z) (i : Z) :
  In i l -> (i <= -9)%Z ->
  Tui.for_each (Tui.index Tui.chars) l = Tui.Raise Tui.IndexError.
Proof.
  induction l as [ | j l IH]; intros Hin Hi; [contradiction | ].
  simpl. destruct (Tui.index Tui.chars j) as [c | e] eqn:Ej.
  - simpl. destruct Hin as [-> | Hin].
    + rewrite (index_chars_below i Hi) in Ej. discriminate.
    + rewrite (IH Hin Hi). reflexivity.
  - simpl. apply index_raises_index_error in Ej. congruence.
Qed.

End Strings.

Section Maximum.

Let pick (m v : Q) : Q := if Qlt_le_dec m v then v else m.

Lemma fold_max_ge_start (l : list Q) (x : Q) : x <= fold_left pick l x.
Proof.
  revert x. induction l as [ | v l IH]; intros x; simpl.
  - apply Qle_refl.
  - eapply Qle_trans; [ | apply IH]. unfold pick.
    destruct (Qlt_le_dec x v); [apply Qlt_le_weak; assumption | apply Qle_refl].
Qed.

Lemma fold_max_ge_item (l : list Q) (x v : Q) :
  In v l -> v <= fold_left pick l x.
Proof.
  revert x. induction l as [ | y l IH]; intros x Hin; [contradiction | ].
  simpl. destruct Hin as [-> | Hin]; [ | apply IH; exact Hin].
  eapply Qle_trans; [ | apply fold_max_ge_start]. unfold pick.
  destruct (Qlt_le_dec x v); [apply Qle_refl | assumption].
Qed.

(** [max(data)] of a non-empty list is an upper bound of its items. *)
Lemma max_is_upper_bound (data : list Q) (v : Q) :
  In v data ->
  exists m, Tui.max data = Tui.Ok m /\ v <= m.
Proof.
  destruct data as [ | x rest]; [contradiction | ].
  intros Hin. eexists. split; [reflexivity | ].
  destruct Hin as [-> | Hin].
  - apply fold_max_ge_start.
  - apply fold_max_ge_item. exact Hin.
Qed.

End Maximum.

Section Sparklines.

(** The scaling of one sample, as both sparklines compute it. *)
Let scale (max_val val : Q) : Tui.result Z :=
  Tui.bind_result (Tui.truediv val max_val) (fun q =>
  Tui.Ok (Gauge.int (q * inject_Z (Z.of_nat (List.length Tui.chars) - 1)))).

Lemma scale_eq (max_val val : Q) :
  ~ max_val == 0 ->
  scale max_val val = Tui.Ok (Gauge.int (val / max_val * 7)).
Proof.
  intros Hm. unfold scale, Tui.truediv.
  destruct (Qeq_bool max_val 0) eqn:E.
  - apply Qeq_bool_iff in E. contradiction.
  - reflexivity.
Qed.

Lemma normalized_eq (max_val : Q) (data : list Q) :
  ~ max_val == 0 ->
  Tui.for_each (scale max_val) data
  = Tui.Ok (map (fun val => Gauge.int (val / max_val * 7)) data).
Proof.
  intros Hm. induction data as [ | v data IH]; [reflexivity | ].
  simpl. rewrite (scale_eq max_val v Hm). simpl. rewrite IH. reflexivity.
Qed.

Lemma scaled_in_range (max_val val : Q) :
  0 < max_val -> 0 <= val -> val <= max_val ->
  (0 <= Gauge.int (val / max_val * 7) <= 7)%Z.
Proof.
  intros Hm H0 Hv. apply int_between.
  - apply Qmult_le_0_compat; [ | discriminate].
    apply Qle_shift_div_l; [exact Hm | lra].
  - change (inject_Z 7) with 7.
    assert (H : val / max_val <= 1).
    { apply Qle_shift_div_r; [exact Hm | lra]. }
    lra.
Qed.

Lemma scaled_in_range_all (max_val : Q) (data : list Q) :
  0 < max_val ->
  Forall (fun v => 0 <= v) data ->
  (forall v, In v data -> v <= max_val) ->
  Forall (fun i => (0 <= i <= 7)%Z)
    (map (fun val => Gauge.int (val / max_val * 7)) data).
Proof.
  intros Hm Hpos Hle. rewrite Forall_forall in *.
  intros i Hi. apply in_map_iff in Hi. destruct Hi as (v & <- & Hv).
  apply scaled_in_range; [exact Hm | apply Hpos; exact Hv | apply Hle; exact Hv].
Qed.

(** A sparkline of samples that fit the scale. *)
Lemma sparkline_in_range (max_val : Q) (data : list Q) :
  0 < max_val ->
  Forall (fun v => 0 <= v) data ->
  (forall v, In v data -> v <= max_val) ->
  exists s,
    Tui.bind_result (Tui.for_each (scale max_val) data)
      (fun normalized => Tui.for_each (Tui.index Tui.chars) normalized)
    = Tui.Ok s /\
    List.length s = List.length data /\
    Forall (fun c => In c Tui.chars) s.
Proof.
  intros Hm Hpos Hle.
  rewrite normalized_eq by lra. simpl.
  destruct (join_in_range _ (scaled_in_range_all max_val data Hm Hpos Hle))
    as (s & Es & Ls & Fs).
  exists s. rewrite length_map in Ls. repeat split; assumption.
Qed.

(** X9: for samples that are all >= 0, as CPU percentages are,
    CPUDetailWidget._create_sparkline raises nothing and returns one bar of
    the eight per sample. *)
Theorem cpu_sparkline_of_nonneg (data : list Q) :
  Forall (fun v => 0 <= v) data ->
  exists s,
    Tui.cpu_create_sparkline data = Tui.Ok s /\
    List.length s = List.length data /\
    Forall (fun c => In c Tui.chars) s.
Proof.
  intros Hpos. destruct data as [ | x rest].
  - exists []. repeat split. constructor.
  - unfold Tui.cpu_create_sparkline.
    destruct (max_is_upper_bound (x :: rest) x (or_introl eq_refl))
      as (m & Em & _).
    rewrite Em. cbn [Tui.bind_result].
    assert (Hub : forall v, In v (x :: rest) -> v <= m).
    { intros v Hv.
      destruct (max_is_upper_bound (x :: rest) v Hv) as (m' & Em' & Hle).
      congruence. }
    destruct (Qlt_le_dec 0 m) as [Hm | Hm].
    + apply sparkline_in_range; assumption.
    + apply sparkline_in_range; [reflexivity | assumption | ].
      intros v Hv. specialize (Hub v Hv). lra.
Qed.

(** X10: for samples that are all >= 0, at most 60 of them (the bound of
    the histories), NetworkDetailWidget._create_sparkline raises nothing
    and returns one bar of the eight per sample. *)
Theorem net_sparkline_of_nonneg (data : list Q) :
  Forall (fun v => 0 <= v) data ->
  (List.length data <= 60)%nat ->
  exists s,
    Tui.net_create_sparkline data = Tui.Ok s /\
    List.length s = List.length data /\
    Forall (fun c => In c Tui.chars) s.
Proof.
  intros Hpos Hlen.
  assert (Hflat : exists s,
             Tui.Ok (Tui.times Tui.LOWER_EIGHTH
                       (Z.min (Z.of_nat (List.length data)) 60)) = Tui.Ok s /\
             List.length s = List.length data /\
             Forall (fun c => In c Tui.chars) s).
  { eexists. split; [reflexivity | ]. split.
    - rewrite times_length. lia.
    - apply Forall_forall. intros c Hc. unfold Tui.times in Hc.
      apply repeat_spec in Hc. subst c. simpl. tauto. }
  destruct data as [ | x rest]; [exact Hflat | ].
  unfold Tui.net_create_sparkline.
  destruct (max_is_upper_bound (x :: rest) x (or_introl eq_refl))
    as (m & Em & Hxm).
  rewrite Em. cbn [Tui.bind_result].
  assert (Hub : forall v, In v (x :: rest) -> v <= m).
  { intros v Hv.
    destruct (max_is_upper_bound (x :: rest) v Hv) as (m' & Em' & Hle).
    congruence. }
  destruct (Qeq_bool m 0) eqn:E; [exact Hflat | ].
  apply sparkline_in_range; try assumption.
  assert (H0 : 0 <= x) by (apply (Forall_inv Hpos)).
  assert (Hne : ~ m == 0).
  { intros H. apply Qeq_bool_iff in H. congruence. }
  destruct (Qlt_le_dec 0 m) as [Hm | Hm]; [exact Hm | ].
  exfalso. apply Hne. lra.
Qed.

(** X11: when the largest sample is positive and some sample is at most
    -9/7 of it (a rate made negative by a counter reset is easily that
    large), NetworkDetailWidget._create_sparkline raises IndexError. *)
Theorem net_sparkline_raises_on_large_negative (data : list Q) (m v : Q) :
  Tui.max data = Tui.Ok m ->
  0 < m ->
  In v data ->
  7 * v <= - (9) * m ->
  Tui.net_create_sparkline data = Tui.Raise Tui.IndexError.
Proof.
  intros Em Hm Hv Hneg.
  destruct data as [ | x rest]; [contradiction | ].
  unfold Tui.net_create_sparkline. rewrite Em. cbn [Tui.bind_result].
  assert (Hne : ~ m == 0) by lra.
  destruct (Qeq_bool m 0) eqn:E.
  { apply Qeq_bool_iff in E. contradiction. }
  pose proof (normalized_eq m (x :: rest) Hne) as Hn. unfold scale in Hn.
  cbv zeta. rewrite Hn. cbn [Tui.bind_result].
  apply (join_out_of_range _ (Gauge.int (v / m * 7))).
  - apply in_map_iff. exists v. split; [reflexivity | exact Hv].
  - apply int_below; [lia | ].
    change (inject_Z (-9)) with (-9 # 1).
    assert (H : v / m <= - (9 # 7)).
    { apply Qle_shift_div_r; [exact Hm | lra]. }
    lra.
Qed.

End Sparklines.

Lemma cpu_sparkline_of_nonneg_witness :
  exists s,
    Tui.cpu_create_sparkline [0; 50; 100; 25] = Tui.Ok s /\
    List.length s = List.length [0; 50; 100; 25] /\
    Forall (fun c => In c Tui.chars) s.
Proof.
  apply (cpu_sparkline_of_nonneg [0; 50; 100; 25]).
  repeat constructor; discriminate.
Defined.

Lemma net_sparkline_of_nonneg_witness :
  exists s,
    Tui.net_create_sparkline [0; 1048576; 524288] = Tui.Ok s /\
    List.length s = List.length [0; 1048576; 524288] /\
    Forall (fun c => In c Tui.chars) s.
Proof.
  apply (net_sparkline_of_nonneg [0; 1048576; 524288]).
  - repeat constructor; discriminate.
  - simpl. lia.
Defined.

Lemma net_sparkline_raises_on_large_negative_witness :
  Tui.net_create_sparkline [1048576; - (209715200)]
  = Tui.Raise Tui.IndexError.
Proof.
  apply (net_sparkline_raises_on_large_negative
           [1048576; - (209715200)] 1048576 (- (209715200))).
  - reflexivity.
  - reflexivity.
  - right. left. reflexivity.
  - vm_compute. discriminate.
Defined.

(** X8: for a percentage between 0 and 100 and a width >= 0,
    _create_progress_bar returns exactly [width] cells: int(width *
    percent / 100) full blocks, at most [width], then light shades. *)
Theorem progress_bar_has_width (percent : Q) (width : Z) :
  0 <= percent -> percent <= 100 -> (0 <= width)%Z ->
  exists filled,
    (0 <= filled <= width)%Z /\
    Tui.create_progress_bar percent width
    = repeat Tui.FULL_BLOCK (Z.to_nat filled)
      ++ repeat Tui.LIGHT_SHADE (Z.to_nat (width - filled)) /\
    List.length (Tui.create_progress_bar percent width) = Z.to_nat width.
Proof.
  intros H0 H100 Hw.
  exists (Gauge.int (inject_Z width * percent / 100)).
  assert (Hwq : 0 <= inject_Z width).
  { change 0 with (inject_Z 0). rewrite <- Zle_Qle. exact Hw. }
  assert (Hb : (0 <= Gauge.int (inject_Z width * percent / 100) <= width)%Z).
  { apply int_between.
    - apply Qle_shift_div_l; [reflexivity | ].
      rewrite Qmult_0_l. apply Qmult_le_0_compat; assumption.
    - apply Qle_shift_div_r; [reflexivity | ].
      apply Qmult_le_compat_nonneg; split;
        try assumption; apply Qle_refl. }
  split; [exact Hb | ]. split; [reflexivity | ].
  unfold Tui.create_progress_bar. cbv zeta.
  rewrite length_app, !times_length. lia.
Qed.

Lemma progress_bar_has_width_witness :
  exists filled,
    (0 <= filled <= 40)%Z /\
    Tui.create_progress_bar (375 # 10) 40
    = repeat Tui.FULL_BLOCK (Z.to_nat filled)
      ++ repeat Tui.LIGHT_SHADE (Z.to_nat (40 - filled)) /\
    List.length (Tui.create_progress_bar (375 # 10) 40) = Z.to_nat 40.
Proof.
  apply (progress_bar_has_width (375 # 10) 40).
  - discriminate.
  - discriminate.
  - lia.
Defined.

(** ** The terminal interface: byte counts, buttons and histories *)

Lemma format_bytes_loop_spec (units : list string) (v : Q) :
  exists k,
    (k <= List.length units)%nat /\
    snd (Tui.format_bytes_loop units v) = nth k units "PB"%string /\
    fst (Tui.format_bytes_loop units v) * inject_Z (1024 ^ Z.of_nat k) == v /\
    ((k < List.length units)%nat ->
     fst (Tui.format_bytes_loop units v) < 1024) /\
    ((0 < k)%nat -> 1 <= fst (Tui.format_bytes_loop units v)).
Proof.
  revert v. induction units as [ | u rest IH]; intros v.
  - exists 0%nat. simpl. repeat split; try lia. ring.
  - simpl. destruct (Qlt_le_dec v 1024) as [Hlt | Hge].
    + exists 0%nat. simpl. repeat split; try lia; [ring | intros _; exact Hlt].
    + destruct (IH (v / 1024)) as (k & Hk & Hu & Hv & Hlt & Hone).
      exists (S k). split; [simpl; lia | ]. split; [exact Hu | ].
      split; [ | split].
      * rewrite Nat2Z.inj_succ, Z.pow_succ_r by lia.
        rewrite inject_Z_mult. change (inject_Z 1024) with 1024.
        set (f := fst (Tui.format_bytes_loop rest (v / 1024))) in *.
        set (p := inject_Z (1024 ^ Z.of_nat k)) in *.
        assert (E : f * (1024 * p) == 1024 * (f * p)) by ring.
        rewrite E, Hv. field.
      * intros H. apply Hlt. simpl in H. lia.
      * intros _. destruct k as [ | k]; [ | apply Hone; lia].
        simpl in Hv. rewrite Qmult_1_r in Hv. rewrite Hv.
        apply Qle_shift_div_l; [reflexivity | lra].
Qed.

(** X12: _format_bytes picks the unit number k of B, KB, MB, GB, TB, PB,
    and the number it hands to the two-decimal formatting is the input
    divided by 1024^k: that number times 1024^k is the input; it is below
    1024 unless the unit is PB, and at least 1 unless the unit is B.  A
    negative input keeps the unit B whatever its size. *)
Theorem format_bytes_scaled (bytes_val : Q) :
  exists k,
    (k <= 5)%nat /\
    snd (Tui.format_bytes bytes_val)
      = nth k ["B"; "KB"; "MB"; "GB"; "TB"]%string "PB"%string /\
    fst (Tui.format_bytes bytes_val) * inject_Z (1024 ^ Z.of_nat k)
      == bytes_val /\
    ((k < 5)%nat -> fst (Tui.format_bytes bytes_val) < 1024) /\
    ((0 < k)%nat -> 1 <= fst (Tui.format_bytes bytes_val)) /\
    (bytes_val < 0 -> k = 0%nat).
Proof.
  destruct (format_bytes_loop_spec
              ["B"; "KB"; "MB"; "GB"; "TB"]%string bytes_val)
    as (k & Hk & Hu & Hv & Hlt & Hone).
  exists k. unfold Tui.format_bytes.
  repeat split; try assumption.
  intros Hneg. destruct k as [ | k]; [reflexivity | exfalso].
  specialize (Hone ltac:(lia)).
  set (f := fst (Tui.format_bytes_loop
                   ["B"; "KB"; "MB"; "GB"; "TB"]%string bytes_val)) in *.
  assert (Hp : 0 < inject_Z (1024 ^ Z.of_nat (S k))).
  { change 0 with (inject_Z 0). rewrite <- Zlt_Qlt.
    apply Z.pow_pos_nonneg; lia. }
  assert (H : 0 <= f * inject_Z (1024 ^ Z.of_nat (S k))).
  { apply Qmult_le_0_compat; [lra | apply Qlt_le_weak; exact Hp]. }
  rewrite Hv in H. lra.
Qed.

Section Buttons.

(** What every press keeps. *)
Let valid (w : Tui.ProcessWidget) : Prop :=
  (Tui.widget_sort_by w = "cpu"%string \/
   Tui.widget_sort_by w = "memory"%string) /\
  (Tui.num_processes w = 10 \/ Tui.num_processes w = 20 \/
   Tui.num_processes w = 50)%Z.

Lemma press_keeps_valid (id : string) (w : Tui.ProcessWidget) :
  valid w -> valid (Tui.on_button_pressed id w).
Proof.
  unfold valid, Tui.on_button_pressed. intros [Hs Hn].
  repeat (match goal with
          | |- context [String.eqb id ?b] => destruct (String.eqb id b)
          end); simpl; tauto.
Qed.

Lemma presses_keep_valid (ids : list string) (w : Tui.ProcessWidget) :
  valid w ->
  valid (fold_left (fun w id => Tui.on_button_pressed id w) ids w).
Proof.
  revert w. induction ids as [ | id ids IH]; intros w Hw; [exact Hw | ].
  simpl. apply IH. apply press_keeps_valid. exact Hw.
Qed.

(** X13: after any sequence of button presses on a new process table,
    sort_by is 'cpu' or 'memory' and num_processes is 10, 20 or 50; the
    call of get_top_processes made by update_processes then returns at
    most 50 rows. *)
Theorem buttons_keep_selection_valid
    (ids : list string) (now : Q) (pp : list Z) (reads : list ProcRead)
    (s : Monitor) :
  let w := fold_left (fun w id => Tui.on_button_pressed id w) ids
             Tui.process_widget_init in
  (Tui.widget_sort_by w = "cpu"%string \/
   Tui.widget_sort_by w = "memory"%string) /\
  (Tui.num_processes w = 10 \/ Tui.num_processes w = 20 \/
   Tui.num_processes w = 50)%Z /\
  exists r s' t,
    Tui.update_processes now pp reads w s = Py.Ok (r, s', t) /\
    (List.length r <= 50)%nat /\
    List.length r
      = Nat.min (Z.to_nat (Tui.num_processes w))
          (List.length (filter read_ok reads)).
Proof.
  intros w.
  assert (Hv : valid w).
  { apply presses_keep_valid. unfold valid. simpl. tauto. }
  destruct Hv as [Hs Hn]. split; [exact Hs | ]. split; [exact Hn | ].
  unfold Tui.update_processes. rewrite get_top_processes_eq.
  eexists _, _, _. split; [reflexivity | ].
  assert (Hlen : List.length
                   (Py.slice_to
                      (Py.sort_reverse (sort_key (Tui.widget_sort_by w))
                         (collect reads)) (Tui.num_processes w))
                 = Nat.min (Z.to_nat (Tui.num_processes w))
                     (List.length (filter read_ok reads))).
  { unfold Py.slice_to.
    destruct (Z.leb_spec 0 (Tui.num_processes w)) as [_ | Hneg]; [ | lia].
    rewrite length_firstn, sort_reverse_length, collect_length. reflexivity. }
  split; [ | exact Hlen].
  rewrite Hlen. destruct Hn as [-> | [-> | ->]]; lia.
Qed.

End Buttons.

Section Histories.

Lemma deque_append_length (n : nat) (d : list Q) (x : Q) :
  (0 < n)%nat -> (List.length d <= n)%nat ->
  List.length (Tui.deque_append n d x) = Nat.min n (S (List.length d)).
Proof.
  intros Hn Hd. unfold Tui.deque_append.
  destruct n as [ | n]; [lia | ].
  destruct (Nat.leb_spec (S n) (List.length d)) as [Hfull | Hroom].
  - rewrite length_app. simpl. destruct d as [ | y d]; simpl in *; lia.
  - rewrite length_app. simpl. lia.
Qed.

Lemma truediv_by_length (a : Q) (n : nat) :
  Tui.truediv a (inject_Z (Z.of_nat (S n)))
  = Tui.Ok (a / inject_Z (Z.of_nat (S n))).
Proof.
  unfold Tui.truediv.
  destruct (Qeq_bool (inject_Z (Z.of_nat (S n))) 0) eqn:E; [ | reflexivity].
  apply Qeq_bool_iff in E. unfold Qeq in E. simpl in E. lia.
Qed.

(** With histories of the same length the statistics block raises
    nothing. *)
Lemma statistics_of_aligned (w : Tui.NetworkWidget) :
  List.length (Tui.history_up w) = List.length (Tui.history_down w) ->
  (Tui.history_down w = [] /\ Tui.statistics w = Tui.Ok None) \/
  (Tui.history_down w <> [] /\
   exists st, Tui.statistics w = Tui.Ok (Some st)).
Proof.
  destruct w as [up down]. simpl. intros Hlen.
  destruct down as [ | d ds]; [left; split; reflexivity | right].
  split; [discriminate | ].
  destruct up as [ | u us]; [discriminate | ].
  unfold Tui.statistics. simpl Tui.history_down. simpl Tui.history_up.
  cbv iota. simpl List.length.
  rewrite !truediv_by_length. simpl. eauto.
Qed.

(** X14: update_network keeps the two histories of the same length, at
    most 60, one sample longer until they are full; after it the
    statistics block of render computes its averages and maxima without
    raising. *)
Theorem histories_stay_aligned
    (w : Tui.NetworkWidget) (net : NetIO) (now : Q) (s : Monitor) :
  List.length (Tui.history_up w) = List.length (Tui.history_down w) ->
  (List.length (Tui.history_up w) <= 60)%nat ->
  exists w' s',
    Tui.update_network net now w s = Py.Ok (w', s', []) /\
    List.length (Tui.history_up w') = List.length (Tui.history_down w') /\
    List.length (Tui.history_up w')
      = Nat.min 60 (S (List.length (Tui.history_up w))) /\
    exists st, Tui.statistics w' = Tui.Ok (Some st).
Proof.
  intros Heq Hmax.
  unfold Tui.update_network, bind, ret. rewrite get_network_info_eq.
  eexists _, _. split; [reflexivity | ].
  cbn [Tui.history_up Tui.history_down send_rate_mib_s recv_rate_mib_s].
  assert (Lu : forall x,
             List.length (Tui.deque_append 60 (Tui.history_up w) x)
             = Nat.min 60 (S (List.length (Tui.history_up w)))).
  { intros x. apply deque_append_length; lia. }
  assert (Ld : forall x,
             List.length (Tui.deque_append 60 (Tui.history_down w) x)
             = Nat.min 60 (S (List.length (Tui.history_up w)))).
  { intros x. rewrite Heq. apply deque_append_length; lia. }
  split; [rewrite Lu, Ld; reflexivity | ].
  split; [apply Lu | ].
  match goal with
  | |- exists st, Tui.statistics ?w' = _ =>
      destruct (statistics_of_aligned w') as [[Hnil _] | [_ Hst]]
  end.
  - cbn [Tui.history_up Tui.history_down]. rewrite Lu, Ld. reflexivity.
  - exfalso. cbn [Tui.history_down] in Hnil.
    apply (f_equal (@List.length Q)) in Hnil. rewrite Ld in Hnil.
    simpl in Hnil. lia.
  - exact Hst.
Qed.

Lemma histories_stay_aligned_witness :
  exists w' s',
    Tui.update_network Sample.net201 1 Tui.network_widget_init Sample.fresh
      = Py.Ok (w', s', []) /\
    List.length (Tui.history_up w') = List.length (Tui.history_down w') /\
    List.length (Tui.history_up w')
      = Nat.min 60 (S (List.length (Tui.history_up Tui.network_widget_init))) /\
    exists st, Tui.statistics w' = Tui.Ok (Some st).
Proof.
  apply (histories_stay_aligned
           Tui.network_widget_init Sample.net201 1 Sample.fresh).
  - reflexivity.
  - simpl. lia.
Defined.

End Histories.


(** ** The ranking keeps the largest *)

Section TopRows.

Context {A : Type}.
Variable key : A -> Q.

Lemma insert_desc_perm (x : A) (l : list A) :
  Permutation (Py.insert_desc key x l) (x :: l).
Proof.
  induction l as [ | y l IH]; simpl.
  - apply Permutation_refl.
  - destruct (Qle_bool (key y) (key x)).
    + apply Permutation_refl.
    + eapply perm_trans; [apply perm_skip; exact IH | apply perm_swap].
Qed.

(** The sort neither loses nor invents a row. *)
Lemma sort_reverse_perm (l : list A) :
  Permutation (Py.sort_reverse key l) l.
Proof.
  induction l as [ | x l IH]; simpl.
  - apply Permutation_refl.
  - eapply perm_trans; [apply insert_desc_perm | apply perm_skip; exact IH].
Qed.

Lemma StronglySorted_app_cross (R : A -> A -> Prop) (l1 l2 : list A) :
  StronglySorted R (l1 ++ l2) ->
  forall a b, In a l1 -> In b l2 -> R a b.
Proof.
  induction l1 as [ | x l1 IH]; intros Hs a b Ha Hb; [contradiction | ].
  simpl in Hs. apply StronglySorted_inv in Hs. destruct Hs as [Hs Hx].
  destruct Ha as [-> | Ha].
  - rewrite Forall_forall in Hx. apply Hx. apply in_or_app. right. exact Hb.
  - apply (IH Hs a b Ha Hb).
Qed.

Lemma slice_to_is_prefix (l : list A) (num : Z) :
  exists k, Py.slice_to l num = firstn k l.
Proof.
  unfold Py.slice_to. destruct (0 <=? num)%Z; eauto.
Qed.

End TopRows.

(** X15: the rows returned by get_top_processes are really the top ones:
    together with the rows left out they are exactly the rows read without
    error (nothing lost, invented or repeated), and no row left out has a
    larger value of the selected metric than a row returned. *)
Theorem top_processes_are_the_largest
    (s : Monitor) (num : Z) (sort_by : string) (now : Q)
    (pp : list Z) (reads : list ProcRead) :
  exists r s' t left_out,
    get_top_processes num sort_by now pp reads s = Py.Ok (r, s', t) /\
    Permutation (r ++ left_out) (collect reads) /\
    forall a b,
      In a r -> In b left_out ->
      sort_key sort_by b <= sort_key sort_by a.
Proof.
  rewrite get_top_processes_eq.
  set (sorted := Py.sort_reverse (sort_key sort_by) (collect reads)).
  destruct (slice_to_is_prefix sorted num) as [k Hk].
  exists (Py.slice_to sorted num). eexists _, _. exists (skipn k sorted).
  split; [reflexivity | ]. rewrite Hk. split.
  - rewrite firstn_skipn. apply sort_reverse_perm.
  - intros a b Ha Hb.
    apply (ranked_key_le (sort_key sort_by) (fun _ _ => True)).
    apply (StronglySorted_app_cross _ (firstn k sorted) (skipn k sorted));
      try assumption.
    rewrite firstn_skipn. apply sort_reverse_ranked.
    apply StronglySorted_trivial.
Qed.

(** ** The sign of the rates, without a clamp *)

Lemma round2_below_hundredth (x : Q) :
  x <= - (1 # 100) -> Py.round2 x < 0.
Proof.
  intros Hx. eapply Qle_lt_trans.
  - apply round2_monotone. exact Hx.
  - reflexivity.
Qed.

Lemma round2_follows_delta (delta : Z) (raw : Q) :
  ((0 <= delta)%Z -> 0 <= raw) ->
  ((delta <= 0)%Z -> raw <= 0) ->
  follows_delta delta raw (Py.round2 raw).
Proof.
  intros Hpos Hneg. repeat split.
  - intros H. apply round2_nonneg. auto.
  - intros H. apply round2_nonpos. auto.
  - apply round2_below_hundredth.
Qed.

Lemma inject_Z_nonneg (z : Z) : (0 <= z)%Z -> 0 <= inject_Z z.
Proof. intros H. unfold Qle. simpl. lia. Qed.

Lemma inject_Z_nonpos (z : Z) : (z <= 0)%Z -> inject_Z z <= 0.
Proof. intros H. unfold Qle. simpl. lia. Qed.

(** C1, amended: the delta is not clamped, so each of the four rates
    follows the sign of its counter delta.  A rate is at least 0 when the
    new counter value is not below the stored previous one, at most 0 when
    it is not above it, and negative as soon as the exact quotient of the
    delta by the window is -0.01 MiB/s or less. *)
Theorem rates_have_the_sign_of_the_delta
    (s : Monitor) (now : Q) (net : NetIO) (io prev : DiskIO) :
  _prev_disk_io s = Some prev ->
  (exists r s' t,
     get_network_info net now s = Py.Ok (r, s', t) /\
     follows_delta (bytes_sent net - bytes_sent (_prev_net_io s))
       (inject_Z (bytes_sent net - bytes_sent (_prev_net_io s))
        / window s now / MIB)
       (send_rate_mib_s r) /\
     follows_delta (bytes_recv net - bytes_recv (_prev_net_io s))
       (inject_Z (bytes_recv net - bytes_recv (_prev_net_io s))
        / window s now / MIB)
       (recv_rate_mib_s r)) /\
  (exists d s' t,
     get_disk_info (Some io) now s = Py.Ok (Some d, s', t) /\
     follows_delta (read_bytes io - read_bytes prev)
       (inject_Z (read_bytes io - read_bytes prev) / MIB / window s now)
       (read_rate_mib_s d) /\
     follows_delta (write_bytes io - write_bytes prev)
       (inject_Z (write_bytes io - write_bytes prev) / MIB / window s now)
       (write_rate_mib_s d)).
Proof.
  intros Hprev.
  pose proof (window_pos s now) as Hw. pose proof MIB_pos as Hm.
  split.
  - rewrite get_network_info_eq. eexists _, _, _.
    split; [reflexivity | ]. simpl.
    split; apply round2_follows_delta; intros H.
    + apply div_nonneg; [apply div_nonneg | ]; auto using inject_Z_nonneg.
    + apply div_nonpos; [apply div_nonpos | ]; auto using inject_Z_nonpos.
    + apply div_nonneg; [apply div_nonneg | ]; auto using inject_Z_nonneg.
    + apply div_nonpos; [apply div_nonpos | ]; auto using inject_Z_nonpos.
  - rewrite (get_disk_info_eq s now io prev Hprev). eexists _, _, _.
    split; [reflexivity | ]. simpl.
    split; apply round2_follows_delta; intros H.
    + apply div_nonneg; [apply div_nonneg | ]; auto using inject_Z_nonneg.
    + apply div_nonpos; [apply div_nonpos | ]; auto using inject_Z_nonpos.
    + apply div_nonneg; [apply div_nonneg | ]; auto using inject_Z_nonneg.
    + apply div_nonpos; [apply div_nonpos | ]; auto using inject_Z_nonpos.
Qed.

Lemma rates_have_the_sign_of_the_delta_witness :
  (exists r s' t,
     get_network_info Sample.net_reset 1 Sample.fresh = Py.Ok (r, s', t) /\
     follows_delta
       (bytes_sent Sample.net_reset - bytes_sent (_prev_net_io Sample.fresh))
       (inject_Z
          (bytes_sent Sample.net_reset
           - bytes_sent (_prev_net_io Sample.fresh))
        / window Sample.fresh 1 / MIB)
       (send_rate_mib_s r) /\
     follows_delta
       (bytes_recv Sample.net_reset - bytes_recv (_prev_net_io Sample.fresh))
       (inject_Z
          (bytes_recv Sample.net_reset
           - bytes_recv (_prev_net_io Sample.fresh))
        / window Sample.fresh 1 / MIB)
       (recv_rate_mib_s r)) /\
  (exists d s' t,
     get_disk_info (Some Sample.disk_reset) 1 Sample.fresh
       = Py.Ok (Some d, s', t) /\
     follows_delta
       (read_bytes Sample.disk_reset - read_bytes Sample.disk200)
       (inject_Z (read_bytes Sample.disk_reset - read_bytes Sample.disk200)
        / MIB / window Sample.fresh 1)
       (read_rate_mib_s d) /\
     follows_delta
       (write_bytes Sample.disk_reset - write_bytes Sample.disk200)
       (inject_Z (write_bytes Sample.disk_reset - write_bytes Sample.disk200)
        / MIB / window Sample.fresh 1)
       (write_rate_mib_s d)).
Proof.
  apply (rates_have_the_sign_of_the_delta
           Sample.fresh 1 Sample.net_reset Sample.disk_reset Sample.disk200).
  reflexivity.
Defined.

(** ** The temperature cache on binary64 clock readings *)



